(** * Quiz portal: post-authentication routing and dashboard statistics

    A shallow embedding of the client code of the quiz portal:

    - [src/app/page.tsx]         the root page ([HomePage]),
    - [src/unnamed/part_000]     the OAuth callback page ([AuthCallbackPage]),
    - [src/unnamed/part_001]     the sign-up page ([SignupPage]),
    - [src/app/login/page.tsx]   the login page ([LoginPage]) and the student
                                 dashboard ([StudentDashboard]).

    Event handlers and effect bodies are programs over a small command
    language ([Cmd]): every call that leaves the component (a Supabase
    request, a router navigation, a React state setter, [console.error],
    [localStorage.getItem]) is one command; the answers of the outside
    world come from an environment ([Env]).  Running a handler yields the
    sequence of commands it issued. *)

From Stdlib Require Import ZArith Floats String Ascii List Lia.
From stdpp Require Import base option list strings gmap.

Local Open Scope Z_scope.
Local Open Scope string_scope.

(* ===================================================================== *)
(** ** JavaScript values used by the pages *)
(* ===================================================================== *)

Module Js.

(** A JavaScript number is an IEEE 754 binary64 value, and so is the
    kernel's primitive [float]: the arithmetic below is that of the
    engine, rounding, overflow, the infinities, [NaN] and the sign of zero
    included. *)
Definition number : Type := float.

Definition NaN : number := PrimFloat.nan.

(** The number of an integer; exact up to [2^53], which array lengths do
    not reach. *)
Definition of_Z (z : Z) : number :=
  if (z <? 0)%Z then PrimFloat.opp (PrimFloat.of_uint63 (Uint63.of_Z (- z)))
  else PrimFloat.of_uint63 (Uint63.of_Z z).

Definition of_nat (n : nat) : number := of_Z (Z.of_nat n).

(** [a + b] *)
Definition add (a b : number) : number := PrimFloat.add a b.

(** [a / b]: a zero divisor gives [NaN] for [0 / 0] and an infinity
    otherwise; nothing is thrown. *)
Definition div (a b : number) : number := PrimFloat.div a b.

(** [Math.round]: the nearest integer, a tie going up; a result of zero
    keeps the sign of the argument.  A finite number is [m * 2^e] with a sign;
    for [0 <= e] it is an integer already, else [floor (a + 1/2)] is
    computed on the integers. *)
Definition Math_round (a : number) : number :=
  match Prim2SF a with
  | S754_finite negative m e =>
      if (0 <=? e)%Z then a
      else
        let twice := (if negative then - (2 * Z.pos m) else 2 * Z.pos m)%Z in
        let n := ((twice + 2 ^ (- e)) / 2 ^ (1 - e))%Z in
        if (n =? 0)%Z then (if negative then PrimFloat.neg_zero else PrimFloat.zero) else of_Z n
  | _ => a
  end.

(** Truthiness of a number: [0], [-0] and [NaN] are falsy. *)
Definition truthy (a : number) : bool :=
  negb (PrimFloat.is_zero a || PrimFloat.is_nan a).

(** [a || b] on numbers. *)
Definition or (a b : number) : number := if truthy a then a else b.

(** A value that is a string or [undefined]/[null]. *)
Definition value : Type := option string.

(** [!v] for such a value: [undefined], [null] and the empty string are
    falsy. *)
Definition not (v : value) : bool :=
  match v with
  | None => true
  | Some s => String.eqb s ""
  end.

(** [Array.prototype.findIndex]: the index of the first element that
    satisfies [p], and [-1] when there is none. *)
Fixpoint findIndex_from {A : Type} (p : A -> bool) (l : list A) (i : Z) : Z :=
  match l with
  | [] => -1
  | x :: rest => if p x then i else findIndex_from p rest (i + 1)
  end.

Definition findIndex {A : Type} (p : A -> bool) (l : list A) : Z :=
  findIndex_from p l 0.

(** [a || b] on integers. *)
Definition or_int (a b : Z) : Z := if (a =? 0)%Z then b else a.

(** [String.prototype.toLowerCase], on the ASCII letters of a string given
    by its UTF-8 bytes.  The handlers use it only to look for ["duplicate"]
    in the result, and the characters outside ASCII do not change that: the
    only ones whose lower case has an ASCII letter are U+212A, which gives
    [k], and U+0130, which gives [i] followed by U+0307. *)
Definition lower_ascii (c : ascii) : ascii :=
  let n := nat_of_ascii c in
  if (65 <=? n)%nat && (n <=? 90)%nat then ascii_of_nat (n + 32) else c.

Fixpoint toLowerCase (s : string) : string :=
  match s with
  | EmptyString => EmptyString
  | String c rest => String (lower_ascii c) (toLowerCase rest)
  end.

(** [String.prototype.includes]. *)
Fixpoint includes (s needle : string) : bool :=
  String.prefix needle s ||
  match s with
  | EmptyString => false
  | String _ rest => includes rest needle
  end.

(** [v || d] for a value that is a string or [null]. *)
Definition or_str (v : value) (d : string) : string :=
  match v with
  | None => d
  | Some s => if String.eqb s "" then d else s
  end.

(** The part of a URL before its query string. *)
Fixpoint pathname (url : string) : string :=
  match url with
  | EmptyString => EmptyString
  | String c rest => if Ascii.eqb c "?"%char then EmptyString else String c (pathname rest)
  end.

(** [s.split(sep)] for a separator of one character: the pieces between
    the occurrences of [sep]; there is always at least one piece. *)
Fixpoint split (s : string) (sep : ascii) : list string :=
  match s with
  | EmptyString => [EmptyString]
  | String c rest =>
      if Ascii.eqb c sep then EmptyString :: split rest sep
      else match split rest sep with
           | piece :: pieces => String c piece :: pieces
           | [] => [String c EmptyString]
           end
  end.

(** [a[0]] on an array: [undefined] when the array is empty. *)
Definition first {A : Type} (a : list A) : option A := head a.

(** The code points that [trim] removes: the [WhiteSpace] and the
    [LineTerminator] code points of ECMAScript. *)
Definition WhiteSpace : list N :=
  [0x9; 0xB; 0xC; 0xFEFF;
   0x20; 0xA0; 0x1680;
   0x2000; 0x2001; 0x2002; 0x2003; 0x2004; 0x2005; 0x2006; 0x2007; 0x2008; 0x2009; 0x200A;
   0x202F; 0x205F; 0x3000;
   0xA; 0xD; 0x2028; 0x2029]%N.

(** The UTF-8 encoding of a code point; a string is held as the bytes of the
    encodings of its code points. *)
Definition utf8 (code_point : N) : string :=
  let byte (lead shift : N) : ascii :=
    ascii_of_N (lead + (code_point / shift) mod 0x40)%N in
  if (code_point <? 0x80)%N then
    String (ascii_of_N code_point) EmptyString
  else if (code_point <? 0x800)%N then
    String (byte 0xC0%N 0x40%N) (String (byte 0x80%N 1%N) EmptyString)
  else if (code_point <? 0x10000)%N then
    String (byte 0xE0%N 0x1000%N)
      (String (byte 0x80%N 0x40%N) (String (byte 0x80%N 1%N) EmptyString))
  else
    String (byte 0xF0%N 0x40000%N)
      (String (byte 0x80%N 0x1000%N)
         (String (byte 0x80%N 0x40%N) (String (byte 0x80%N 1%N) EmptyString))).

(** The bytes are the encoding of one of the code points that [trim]
    removes. *)
Definition is_white_space (bytes : string) : bool :=
  existsb (fun code_point => String.eqb (utf8 code_point) bytes) WhiteSpace.

(** [String.prototype.trimStart].  The code points that it removes have one,
    two or three bytes. *)
Fixpoint trimStart (s : string) : string :=
  match s with
  | EmptyString => EmptyString
  | String c1 rest1 =>
      if is_white_space (String c1 EmptyString) then trimStart rest1
      else
        match rest1 with
        | EmptyString => s
        | String c2 rest2 =>
            if is_white_space (String c1 (String c2 EmptyString)) then trimStart rest2
            else
              match rest2 with
              | EmptyString => s
              | String c3 rest3 =>
                  if is_white_space (String c1 (String c2 (String c3 EmptyString)))
                  then trimStart rest3
                  else s
              end
        end
  end.

(** [String.prototype.trimEnd]: the string is cut where what follows is
    white space only. *)
Fixpoint trimEnd (s : string) : string :=
  match s with
  | EmptyString => EmptyString
  | String c rest =>
      match trimStart s with
      | EmptyString => EmptyString
      | _ => String c (trimEnd rest)
      end
  end.

(** [String.prototype.trim] *)
Definition trim (s : string) : string := trimEnd (trimStart s).

(** An index of [slice], counted from the end when negative and clamped to
    the array. *)
Definition relative_index (len i : Z) : Z :=
  if (i <? 0)%Z then Z.max (len + i) 0 else Z.min i len.

(** [a.slice(start, end)] *)
Definition slice {A : Type} (a : list A) (start finish : Z) : list A :=
  let len := Z.of_nat (length a) in
  let k := relative_index len start in
  let final := relative_index len finish in
  firstn (Z.to_nat (final - k)) (skipn (Z.to_nat k) a).

End Js.

(* ===================================================================== *)
(** ** The records exchanged with the Supabase client *)
(* ===================================================================== *)

(** An error object as the client returns it ([AuthError],
    [PostgrestError]): the pages read its [message] only. *)
Module Error.
Record t : Type := make { message : string }.
End Error.

(** A thrown value ([catch (err: any)]) can be anything. *)
Module Thrown.

(** What [err.message] is, for a thrown value other than [null] and
    [undefined]: a string, or a value that is no string, of which only the
    truthiness matters to a handler ([undefined], when the value has no such
    property, as for a thrown number or string, is falsy; the number [42] is
    truthy).  A value that is no string is taken to have no method
    [toLowerCase], as numbers, booleans, arrays and plain objects have
    none. *)
Inductive message_value : Type :=
| text (s : string)
| not_text (truthy : bool).

Inductive t : Type :=
| null
| undefined
| value (message : message_value).

(** A thrown object whose [message] is the given string, or that has no
    [message]. *)
Definition make (message : Js.value) : t :=
  value (match message with
         | Some s => text s
         | None => not_text false
         end).

(** The [TypeError] that the engine throws for a property read on [null]
    or [undefined], or for a call of what is no function; the text of its
    message is the engine's (here in the wording of V8). *)
Definition TypeError (message : string) : t := value (text message).

(** How a logged thrown value is written in a log line here: by its
    message, [null] and [undefined] by their names. *)
Definition print (err : t) : string :=
  match err with
  | null => "null"
  | undefined => "undefined"
  | value (text s) => s
  | value (not_text _) => ""
  end.

End Thrown.

Module User.
Record t : Type := make { id : string; email : Js.value }.
End User.

Module Session.
Record t : Type := make { user : option User.t }.
End Session.

(** A row of table [students]. *)
Module Student.
Record t : Type := make {
  id : string;
  department : Js.value;
  section : Js.value;
  score : option Js.number
}.
End Student.

(** A row of table [quiz_results]. *)
Module QuizResult.
Record t : Type := make {
  student_id : string;
  status : string;
  score : option Js.number      (* [None] is SQL/JSON [null] *)
}.
End QuizResult.

Module Supabase.

(** [supabase.auth.getSession()] resolves to [{ data: { session }, error }]. *)
Record SessionResponse : Type := {
  session_of : option Session.t;     (* [data?.session] *)
  session_error : option Error.t
}.

(** [supabase.auth.signUp] and [signInWithPassword] resolve to
    [{ data: { user, session }, error }]. *)
Record AuthResponse : Type := {
  auth_session : option Session.t;   (* [data.session] *)
  auth_error : option Error.t
}.

(** A PostgREST answer is either a success carrying the data or a failure
    carrying the error and [data: null]. *)
Inductive PostgrestResponse (T : Type) : Type :=
| Success (d : T)
| Failure (e : Error.t).
Arguments Success {T} d.
Arguments Failure {T} e.

Definition data {T : Type} (r : PostgrestResponse T) : option T :=
  match r with Success d => Some d | Failure _ => None end.

Definition error {T : Type} (r : PostgrestResponse T) : option Error.t :=
  match r with Success _ => None | Failure e => Some e end.

(** A query built with [from(..).select(..).eq(..)...]. *)
Record Query : Type := {
  from : string;
  select : string;
  eq : list (string * Js.value);
  order : option (string * bool)     (* column, ascending *)
}.

End Supabase.
Import Supabase.

(** [analytics] of the student dashboard. *)
Record Analytics : Type := {
  averageScore : Js.number;
  totalQuizzes : Js.number;
  completed : Js.number
}.

(** How an awaited call of a helper of the application ends. *)
Inductive Outcome (A : Type) : Type :=
| Returned (a : A)
| Rejected (err : Thrown.t).
Arguments Returned {A} a.
Arguments Rejected {A} err.

(** An object literal passed as the arguments of a call. *)
Abbreviation Params := (list (string * Js.value)).

(* ===================================================================== *)
(** ** Commands, programs and their runs *)
(* ===================================================================== *)

Inductive Cmd : Type :=
(* supabase.auth *)
| auth_getSession
| auth_signUp (email password : Js.value) (options_data : option Params)
| auth_signInWithPassword (email password : string)
(* supabase.rpc(fn, params) *)
| rpc (fn : string) (params : Params)
(* createFacultyProfile of "@/lib/auth-service" *)
| createFacultyProfile (profile : Params)
(* supabase.from(..).select(..) *)
| single_student (q : Query)
| select_students (q : Query)
| select_quiz_results (q : Query)
(* browser *)
| localStorage_getItem (key : string)
| router_push (url : string)
| router_replace (url : string)
| console_error (args : list string)
(* React state setters *)
| setError (msg : string)
| setIsLoading (b : bool)
| setStudentProfile (p : option Student.t)
| setQuizResults (rows : list QuizResult.t)
| setLoadingData (b : bool)
| setClassmates (rows : list Student.t)
| setLeaderboard (rows : list Student.t)
| setAnalytics (a : Analytics).

(** What a command evaluates to.  The Supabase client returns its errors in
    the response and does not reject; [createFacultyProfile] is the
    application's own helper and may throw. *)
Definition Resp (c : Cmd) : Type :=
  match c with
  | auth_getSession => SessionResponse
  | auth_signUp _ _ _ => AuthResponse
  | auth_signInWithPassword _ _ => AuthResponse
  | rpc _ _ => PostgrestResponse unit
  | createFacultyProfile _ => Outcome unit
  | single_student _ => PostgrestResponse Student.t
  | select_students _ => PostgrestResponse (list Student.t)
  | select_quiz_results _ => PostgrestResponse (list QuizResult.t)
  | localStorage_getItem _ => option string
  | _ => unit
  end.

Inductive Prog (A : Type) : Type :=
| Ret (a : A)
| Throw (err : Thrown.t)
| Do (c : Cmd) (k : Resp c -> Prog A).
Arguments Ret {A} a.
Arguments Throw {A} err.
Arguments Do {A} c k.

Fixpoint bind {A B : Type} (p : Prog A) (f : A -> Prog B) : Prog B :=
  match p with
  | Ret a => f a
  | Throw err => Throw err
  | Do c k => Do c (fun r => bind (k r) f)
  end.

#[global] Instance Prog_ret : MRet Prog := fun _ a => Ret a.
#[global] Instance Prog_bind : MBind Prog := fun _ _ f p => bind p f.

(** Issue a command and continue with its answer. *)
Definition call (c : Cmd) : Prog (Resp c) := Do c Ret.

(** [await createFacultyProfile(profile)]: a rejection is thrown at the
    call site. *)
Definition await_createFacultyProfile (profile : Params) : Prog unit :=
  Do (createFacultyProfile profile)
     (fun o : Outcome unit => match o with
                              | Returned a => Ret a
                              | Rejected err => Throw err
                              end).

(** [try { body } catch (err) { handler err }] *)
Fixpoint try_catch {A : Type} (body : Prog A) (handler : Thrown.t -> Prog A) : Prog A :=
  match body with
  | Ret a => Ret a
  | Throw err => handler err
  | Do c k => Do c (fun r => try_catch (k r) handler)
  end.

(** [try { body } finally { cleanup }]: the cleanup runs however the body
    ends, also after a [return] inside it. *)
Fixpoint finally {A : Type} (body : Prog A) (cleanup : Prog unit) : Prog A :=
  match body with
  | Ret a => bind cleanup (fun _ => Ret a)
  | Throw err => bind cleanup (fun _ => Throw err)
  | Do c k => Do c (fun r => finally (k r) cleanup)
  end.

(** The outside world: it answers every command. *)
Definition Env : Type := forall c : Cmd, Resp c.

Inductive Completion (A : Type) : Type :=
| Normal (a : A)
| Uncaught (err : Thrown.t).
Arguments Normal {A} a.
Arguments Uncaught {A} err.

(** The commands a program issues, in order, and how it ends. *)
Fixpoint run {A : Type} (E : Env) (p : Prog A) : list Cmd * Completion A :=
  match p with
  | Ret a => ([], Normal a)
  | Throw err => ([], Uncaught err)
  | Do c k => let '(t, r) := run E (k (E c)) in (c :: t, r)
  end.

Definition trace {A : Type} (E : Env) (p : Prog A) : list Cmd := (run E p).1.

(** A call that creates a profile: one of the two remote procedures, or the
    helper that wraps the faculty one. *)
Definition is_profile_creation (c : Cmd) : bool :=
  match c with
  | rpc fn _ => String.eqb fn "create_student_profile" || String.eqb fn "create_faculty_profile"
  | createFacultyProfile _ => true
  | _ => false
  end.

(** A read of a table (a dashboard data fetch). *)
Definition is_table_read (c : Cmd) : bool :=
  match c with
  | single_student _ | select_students _ | select_quiz_results _ => true
  | _ => false
  end.

(** The URLs a run navigates to, in order. *)
Definition navigations (t : list Cmd) : list string :=
  omap (fun c => match c with
                 | router_push url | router_replace url => Some url
                 | _ => None
                 end) t.

(* ===================================================================== *)
(** ** [src/app/page.tsx]: the root page *)
(* ===================================================================== *)

Module HomePage.

(** [status] of [useSession()]. *)
Inductive Status : Type := loading | authenticated | unauthenticated.

(** The session of [useSession()]: the page reads [session?.user] only. *)
Record NextAuthSession : Type := { user : option User.t }.

(** The body of the page's [useEffect]. *)
Definition effect (session : option NextAuthSession) (status : Status) : Prog unit :=
  match status with
  | loading => Ret tt
  | _ =>
      match session ≫= user with
      | Some _ => call (router_push "/student/dashboard")
      | None => call (router_push "/login")
      end
  end.

End HomePage.

(* ===================================================================== *)
(** ** [src/unnamed/part_000]: the OAuth callback page *)
(* ===================================================================== *)

Module AuthCallbackPage.

Definition dashboard (userType : string) : string :=
  if String.eqb userType "faculty" then "/faculty/dashboard" else "/student/dashboard".

(** The provisioning call of [handleAuth] with its logging. *)
Definition provision (userType : string) (user : User.t) : Prog unit :=
  if String.eqb userType "faculty" then
    r ← call (rpc "create_faculty_profile" [("user_email", User.email user)]);
    match error r with
    | Some rpcError =>
        call (console_error ["Faculty profile creation error:"; Error.message rpcError])
    | None => Ret tt
    end
  else
    r ← call (rpc "create_student_profile" [("user_email", User.email user)]);
    match error r with
    | Some rpcError =>
        call (console_error ["Student profile creation error:"; Error.message rpcError])
    | None => Ret tt
    end.

Definition handleAuth : Prog unit :=
  r ← call auth_getSession;
  match session_of r, session_error r with
  | Some session, None =>
      stored ← call (localStorage_getItem "userType");
      let userType := Js.or_str stored "student" in
      match Session.user session with
      | Some user => provision userType user
      | None => Ret tt
      end;;
      call (router_replace (dashboard userType))
  | _, _ => call (router_replace "/login?error=auth")
  end.

End AuthCallbackPage.

(* ===================================================================== *)
(** ** [src/unnamed/part_001]: the sign-up page *)
(* ===================================================================== *)

Module SignupPage.

(** [useState<"student" | "faculty">]. *)
Inductive UserType : Type := student | faculty.

(** [formData]: an object whose fields [handleInputChange] sets by name;
    a field never set is [undefined]. *)
Definition initialFormData : gmap string string :=
  <["name" := ""]> (<["email" := ""]> (<["class" := ""]>
    (<["section" := ""]> (<["username" := ""]> ∅)))).

Definition handleInputChange (field value : string) (prev : gmap string string)
  : gmap string string :=
  <[field := value]> prev.

(** The [catch] block of [handleSubmit].  Reading [err.message] of [null]
    or [undefined] throws, and so does [err.message.toLowerCase()] for a
    truthy message that is no string; what the block throws is not caught
    again.  (For the test [includes("duplicate")] it is enough to lower the
    ASCII letters, see [Js.toLowerCase].) *)
Definition on_error (err : Thrown.t) : Prog unit :=
  call (console_error [Thrown.print err]);;
  match err with
  | Thrown.null =>
      Throw (Thrown.TypeError "Cannot read properties of null (reading 'message')")
  | Thrown.undefined =>
      Throw (Thrown.TypeError "Cannot read properties of undefined (reading 'message')")
  | Thrown.value (Thrown.not_text true) =>
      Throw (Thrown.TypeError "err.message.toLowerCase is not a function")
  | Thrown.value (Thrown.not_text false) =>
      call (setError "An error occurred. Please try again.")
  | Thrown.value (Thrown.text message) =>
      if negb (Js.not (Some message)) &&
         Js.includes (Js.toLowerCase message) "duplicate"
      then call (setError "This email or username is already registered. Please log in instead.")
      else call (setError (Js.or_str (Some message) "An error occurred. Please try again."))
  end.

Definition handleSubmit (userType : UserType) (formData : gmap string string) : Prog unit :=
  call (setError "");;
  call (setIsLoading true);;
  finally
    (try_catch
       (match userType with
        | student =>
            if Js.not (formData !! "class") || Js.not (formData !! "section") ||
               Js.not (formData !! "username") || Js.not (formData !! "email") ||
               Js.not (formData !! "password")
            then
              call (setError "All fields are required for students.");;
              call (setIsLoading false)
            else
              r ← call (auth_signUp (formData !! "email") (formData !! "password")
                          (Some [("full_name", formData !! "name");
                                 ("user_type", Some "student");
                                 ("username", formData !! "username");
                                 ("department", formData !! "class");
                                 ("section", formData !! "section")]));
              match auth_error r with
              | Some error =>
                  call (setError (Error.message error));;
                  call (setIsLoading false)
              | None =>
                  r' ← call (rpc "create_student_profile"
                               [("user_email", formData !! "email");
                                ("department", formData !! "class");
                                ("section", formData !! "section");
                                ("username", formData !! "username")]);
                  match error r' with
                  | Some rpcError =>
                      call (setError (Error.message rpcError));;
                      call (setIsLoading false)
                  | None => call (router_push "/student/dashboard")
                  end
              end
        | faculty =>
            if Js.not (formData !! "department") || Js.not (formData !! "section") ||
               Js.not (formData !! "username")
            then
              call (setError "Department, section, and username are required for faculty.");;
              call (setIsLoading false)
            else
              await_createFacultyProfile
                [("email", formData !! "email");
                 ("department", formData !! "department");
                 ("section", formData !! "section");
                 ("username", formData !! "username")];;
              call (router_replace "/faculty/dashboard")
        end)
       on_error)
    (call (setIsLoading false)).

End SignupPage.

(* ===================================================================== *)
(** ** [src/app/login/page.tsx]: the login page *)
(* ===================================================================== *)

Module LoginPage.

(** Supabase email/password registration and login. *)
Definition handleManualAuth (isRegister : bool) (email password activeTab : string)
  : Prog unit :=
  call (setIsLoading true);;
  call (setError "");;
  finally
    (try_catch
       (if isRegister then
          r ← call (auth_signUp (Some email) (Some password) None);
          match auth_error r with
          | Some error => call (setError (Error.message error))
          | None => call (setError "Check your email for a confirmation link.")
          end
        else
          r ← call (auth_signInWithPassword email password);
          match auth_error r with
          | Some error => call (setError (Error.message error))
          | None =>
              match auth_session r with
              | Some _ =>
                  call (router_push (if String.eqb activeTab "faculty"
                                     then "/faculty/dashboard"
                                     else "/student/dashboard"))
              | None => Ret tt
              end
          end)
       (fun _ => call (setError "Something went wrong. Please try again.")))
    (call (setIsLoading false)).

End LoginPage.

(* ===================================================================== *)
(** ** [src/app/login/page.tsx]: the student dashboard *)
(* ===================================================================== *)

Module StudentDashboard.

(** The component's state that the data fetches write. *)
Record View : Type := {
  quizResults : list QuizResult.t;
  loadingData : bool;
  studentProfile : option Student.t;
  classmates : list Student.t;
  leaderboard : list Student.t;
  analytics : Analytics
}.

(** The [useState] initial values. *)
Definition initial : View := {|
  quizResults := [];
  loadingData := true;
  studentProfile := None;
  classmates := [];
  leaderboard := [];
  analytics := {| averageScore := Js.of_Z 0; totalQuizzes := Js.of_Z 0; completed := Js.of_Z 0 |}
|}.

(** The effect of one state setter on the state; other commands leave it
    as it is. *)
Definition set (v : View) (c : Cmd) : View :=
  match c with
  | setQuizResults rows =>
      {| quizResults := rows; loadingData := loadingData v; studentProfile := studentProfile v;
         classmates := classmates v; leaderboard := leaderboard v; analytics := analytics v |}
  | setLoadingData b =>
      {| quizResults := quizResults v; loadingData := b; studentProfile := studentProfile v;
         classmates := classmates v; leaderboard := leaderboard v; analytics := analytics v |}
  | setStudentProfile p =>
      {| quizResults := quizResults v; loadingData := loadingData v; studentProfile := p;
         classmates := classmates v; leaderboard := leaderboard v; analytics := analytics v |}
  | setClassmates rows =>
      {| quizResults := quizResults v; loadingData := loadingData v; studentProfile := studentProfile v;
         classmates := rows; leaderboard := leaderboard v; analytics := analytics v |}
  | setLeaderboard rows =>
      {| quizResults := quizResults v; loadingData := loadingData v; studentProfile := studentProfile v;
         classmates := classmates v; leaderboard := rows; analytics := analytics v |}
  | setAnalytics a =>
      {| quizResults := quizResults v; loadingData := loadingData v; studentProfile := studentProfile v;
         classmates := classmates v; leaderboard := leaderboard v; analytics := a |}
  | _ => v
  end.

(** The state after the setters of a run have been applied in order. *)
Definition after (t : list Cmd) (v : View) : View := fold_left set t v.

(** The redirect of a visitor who is not signed in. *)
Definition guard (user : option User.t) (loading : bool) : Prog unit :=
  if loading then Ret tt
  else match user with
       | None => call (router_push "/login")
       | Some _ => Ret tt
       end.

Definition fetchProfile (user : option User.t) : Prog unit :=
  match user with
  | None => Ret tt
  | Some user =>
      r ← call (single_student {| from := "students"; select := "*";
                                  eq := [("id", Some (User.id user))]; order := None |});
      call (setStudentProfile (data r))
  end.

Definition fetchQuizResults (user : option User.t) : Prog unit :=
  call (setLoadingData true);;
  match user with
  | None => Ret tt
  | Some user =>
      r ← call (select_quiz_results {| from := "quiz_results"; select := "*, quizzes(*)";
                                       eq := [("student_id", Some (User.id user))];
                                       order := Some ("taken_at", false) |});
      call (setQuizResults (default [] (data r)));;
      call (setLoadingData false)
  end.

Definition fetchClassmatesAndLeaderboard (studentProfile : option Student.t) : Prog unit :=
  match studentProfile with
  | None => Ret tt
  | Some studentProfile =>
      r ← call (select_students {| from := "students"; select := "*";
                                   eq := [("department", Student.department studentProfile);
                                          ("section", Student.section studentProfile)];
                                   order := None |});
      call (setClassmates (default [] (data r)));;
      r' ← call (select_students {| from := "students"; select := "*";
                                    eq := [("department", Student.department studentProfile);
                                           ("section", Student.section studentProfile)];
                                    order := Some ("score", false) |});
      call (setLeaderboard (default [] (data r')))
  end.

(** [q.score !== null] *)
Definition has_score (q : QuizResult.t) : bool :=
  match QuizResult.score q with Some _ => true | None => false end.

(** [q.score || 0] *)
Definition score_or_0 (q : QuizResult.t) : Js.number :=
  match QuizResult.score q with
  | Some s => Js.or s (Js.of_Z 0)
  | None => Js.of_Z 0
  end.

(** The [averageScore] expression of [fetchAnalytics]. *)
Definition computeAverageScore (data : list QuizResult.t) : Js.number :=
  if (0 <? length data)%nat
  then Js.Math_round
         (Js.div
            (fold_left (fun sum q => Js.add sum (score_or_0 q))
                       (List.filter has_score data) (Js.of_Z 0))
            (Js.of_nat (length (List.filter has_score data))))
  else Js.of_Z 0.

Definition computeAnalytics (data : list QuizResult.t) : Analytics :=
  let completed :=
    length (List.filter (fun q => String.eqb (QuizResult.status q) "completed") data) in
  {| averageScore := computeAverageScore data;
     totalQuizzes := Js.of_nat (length data);
     completed := Js.of_nat completed |}.

Definition fetchAnalytics (user : option User.t) : Prog unit :=
  match user with
  | None => Ret tt
  | Some user =>
      r ← call (select_quiz_results {| from := "quiz_results"; select := "*";
                                       eq := [("student_id", Some (User.id user))];
                                       order := None |});
      match data r with
      | Some data => call (setAnalytics (computeAnalytics data))
      | None => Ret tt
      end
  end.

(** [stats.classRank]:
    [leaderboard.findIndex(l => l.id === user.id) + 1 || 1]. *)
Definition classRank (leaderboard : list Student.t) (user : User.t) : Z :=
  Js.or_int (Js.findIndex (fun l => String.eqb (Student.id l) (User.id user)) leaderboard + 1) 1.

(** [recentQuizzes] *)
Definition recentQuizzes (quizResults : list QuizResult.t) : list QuizResult.t :=
  Js.slice quizResults 0 3.

(** The argument of [getDisplayName]: [{ name?: string; email?: string }]. *)
Record Named : Type := { name : Js.value; email : Js.value }.

Definition getDisplayName (user : Named) : string :=
  if negb (Js.not (name user)) &&
     (0 <? String.length (Js.trim (default EmptyString (name user))))%nat
  then default EmptyString (name user)
  else match email user with
       | None => "User"
       | Some address => default "User" (Js.first (Js.split address "@"))
       end.

Definition getFirstName (displayName : string) : Js.value :=
  Js.first (Js.split displayName " ").

End StudentDashboard.

(* ===================================================================== *)
(** ** The handlers that make further calls *)
(* ===================================================================== *)

(** The mount effect of the sign-up page and the Google button of the login
    page make calls that the commands above do not have: a read of the [id]
    of a profile row, the [signInWithGoogle] of [useAuth()], and two more
    state setters.  Their programs are written over the commands extended
    by these calls. *)
Module Page.

(** A row of [select("id")]. *)
Record IdRow : Type := { id : string }.

Inductive Call : Type :=
| core (c : Cmd)
(* supabase.from(table).select("id").eq(..).single() *)
| single_id (q : Query)
(* signInWithGoogle of useAuth() *)
| signInWithGoogle (userType : string)
(* React state setters of the login page *)
| setGoogleLoading (b : bool)
| setGoogleError (msg : string).

Definition Answer (c : Call) : Type :=
  match c with
  | core c => Resp c
  | single_id _ => PostgrestResponse IdRow
  | signInWithGoogle _ => Outcome unit
  | _ => unit
  end.

Inductive Script (A : Type) : Type :=
| Done (a : A)
| Raise (err : Thrown.t)
| Step (c : Call) (k : Answer c -> Script A).
Arguments Done {A} a.
Arguments Raise {A} err.
Arguments Step {A} c k.

Fixpoint andThen {A B : Type} (p : Script A) (f : A -> Script B) : Script B :=
  match p with
  | Done a => f a
  | Raise err => Raise err
  | Step c k => Step c (fun r => andThen (k r) f)
  end.

#[global] Instance Script_ret : MRet Script := fun _ a => Done a.
#[global] Instance Script_bind : MBind Script := fun _ _ f p => andThen p f.

Definition ask (c : Call) : Script (Answer c) := Step c Done.

(** [try { body } catch (err) { handler err }] *)
Fixpoint catching {A : Type} (body : Script A) (handler : Thrown.t -> Script A) : Script A :=
  match body with
  | Done a => Done a
  | Raise err => handler err
  | Step c k => Step c (fun r => catching (k r) handler)
  end.

(** [try { body } finally { cleanup }] *)
Fixpoint ensuring {A : Type} (body : Script A) (cleanup : Script unit) : Script A :=
  match body with
  | Done a => andThen cleanup (fun _ => Done a)
  | Raise err => andThen cleanup (fun _ => Raise err)
  | Step c k => Step c (fun r => ensuring (k r) cleanup)
  end.

(** The outside world of these handlers. *)
Definition World : Type := forall c : Call, Answer c.

(** The calls a script makes, in order, and how it ends. *)
Fixpoint play {A : Type} (W : World) (p : Script A) : list Call * Completion A :=
  match p with
  | Done a => ([], Normal a)
  | Raise err => ([], Uncaught err)
  | Step c k => let '(t, r) := play W (k (W c)) in (c :: t, r)
  end.

Definition calls {A : Type} (W : World) (p : Script A) : list Call := (play W p).1.

(** The URLs a run navigates to, in order. *)
Definition visited (t : list Call) : list string :=
  navigations (omap (fun c => match c with core c => Some c | _ => None end) t).

End Page.

Module SignupMount.
Import Page.

Definition UserType_string (userType : SignupPage.UserType) : string :=
  match userType with
  | SignupPage.student => "student"
  | SignupPage.faculty => "faculty"
  end.

(** [checkAuthAndProfile], run once when the sign-up page is mounted;
    [searchParams] are the query parameters of the page and [userType] the
    state of the tab. *)
Definition checkAuthAndProfile
  (searchParams : gmap string string) (userType : SignupPage.UserType) : Script unit :=
  r ← ask (core auth_getSession);
  match session_of r ≫= Session.user with
  | Some user =>
      let userTypeParam := searchParams !! "userType" in
      let userTypeToCheck := Js.or_str userTypeParam (UserType_string userType) in
      profileExists ←
        (if String.eqb userTypeToCheck "faculty" then
           r ← ask (single_id {| from := "faculty_profiles"; select := "id";
                                 eq := [("email", User.email user)]; order := None |});
           mret (bool_decide (is_Some (data r)))
         else
           r ← ask (single_id {| from := "student_profiles"; select := "id";
                                 eq := [("email", User.email user)]; order := None |});
           mret (bool_decide (is_Some (data r))));
      if profileExists : bool
      then _ ← ask (core (router_replace (if String.eqb userTypeToCheck "faculty"
                                          then "/faculty/dashboard"
                                          else "/student/dashboard")));
           mret tt
      else mret tt
  | None => mret tt
  end.

(** The updater that the pre-fill effect passes to [setFormData]:
    [(prev) => ({ ...prev, email, name })] with the [email] and [name] of the
    query parameters, or the empty string. *)
Definition prefill (searchParams : gmap string string) (prev : gmap string string)
  : gmap string string :=
  let email := Js.or_str (searchParams !! "email") "" in
  let name := Js.or_str (searchParams !! "name") "" in
  <["name" := name]> (<["email" := email]> prev).

End SignupMount.

Module GoogleButton.
Import Page.

(** [handleGoogleSignIn] of the login page. *)
Definition handleGoogleSignIn (activeTab : string) : Script unit :=
  ask (setGoogleLoading true);;
  ask (setGoogleError "");;
  ensuring
    (catching
       (Step (signInWithGoogle activeTab)
             (fun o : Outcome unit => match o with
                                      | Returned a => Done a
                                      | Rejected err => Raise err
                                      end))
       (fun _ => ask (setGoogleError "Google sign-in failed")))
    (ask (setGoogleLoading false)).

End GoogleButton.

(* ===================================================================== *)
(** ** The remote procedures *)
(* ===================================================================== *)

(** The remote procedures [create_student_profile] and
    [create_faculty_profile] live in the database, and the helper
    [createFacultyProfile] of [@/lib/auth-service] wraps the second; the
    client sources only call them.  This module models them from the spec. *)
Module Backend.

(** Modelled from the spec: a profile, the "role-scoped record linking an
    identity to department/section/username". *)
Record Profile : Type := { department : Js.value; section : Js.value; username : Js.value }.

(** Modelled from the spec: the two profile tables, each "keyed by email",
    so that there is "at most one profile per identity per role". *)
Record Db : Type := {
  student_profiles : gmap string Profile;
  faculty_profiles : gmap string Profile
}.

(** Modelled from the spec: the argument [name] of a call of a remote
    procedure. *)
Definition get (name : string) (params : Params) : Js.value :=
  match List.find (fun kv => String.eqb (fst kv) name) params with
  | Some kv => snd kv
  | None => None
  end.

(** Modelled from the spec: "create profile if absent". *)
Definition create_if_absent (email : string) (p : Profile) (table : gmap string Profile)
  : gmap string Profile :=
  match table !! email with
  | Some _ => table
  | None => <[email := p]> table
  end.

(** Modelled from the spec: the profile that a call describes. *)
Definition profile_of (params : Params) : Profile :=
  {| department := get "department" params;
     section := get "section" params;
     username := get "username" params |}.

(** Modelled from the spec: the remote procedures [create_student_profile]
    and [create_faculty_profile], which live in the database, and the helper
    [createFacultyProfile] of [@/lib/auth-service], which wraps the second;
    the client sources only call them.  Following the spec, each is "create
    profile if absent": a profile row for the identity's email is added to
    the table of the role unless one is there already, and a repeat call is
    not an error.  Every other command leaves the database as it is. *)
Definition serve (c : Cmd) (db : Db) : Db :=
  match c with
  | rpc fn params =>
      if String.eqb fn "create_student_profile" then
        {| student_profiles :=
             create_if_absent (default "" (get "user_email" params)) (profile_of params)
                              (student_profiles db);
           faculty_profiles := faculty_profiles db |}
      else if String.eqb fn "create_faculty_profile" then
        {| student_profiles := student_profiles db;
           faculty_profiles :=
             create_if_absent (default "" (get "user_email" params)) (profile_of params)
                              (faculty_profiles db) |}
      else db
  | createFacultyProfile profile =>
      {| student_profiles := student_profiles db;
         faculty_profiles :=
           create_if_absent (default "" (get "email" profile)) (profile_of profile)
                            (faculty_profiles db) |}
  | _ => db
  end.

(** Modelled from the spec: the answers of these procedures, which do not
    "surface as a fatal error to the caller"; [base] answers every other
    command. *)
Definition answers (base : Env) : Env := fun c =>
  match c as c' return Resp c' -> Resp c' with
  | rpc fn params => fun other =>
      if is_profile_creation (rpc fn params) then Success tt else other
  | createFacultyProfile _ => fun _ => Returned tt
  | _ => fun other => other
  end (base c).

(** Modelled from the spec: the number of profile rows. *)
Definition rows (db : Db) : nat := size (student_profiles db) + size (faculty_profiles db).

End Backend.

(* ===================================================================== *)
(** ** Properties of runs, and sample environments *)
(* ===================================================================== *)

(** A run whose only navigation goes to the login route and that neither
    creates a profile nor reads a table. *)
Definition goes_to_login_only (t : list Cmd) : Prop :=
  map Js.pathname (navigations t) = ["/login"] /\
  List.filter is_profile_creation t = [] /\
  List.filter is_table_read t = [].

(** The provisioning call [c] failed in environment [E]: the remote
    procedure returned an error, or the helper threw. *)
Definition provisioning_failed (E : Env) (c : Cmd) : Prop :=
  match c with
  | rpc fn params => is_profile_creation (rpc fn params) = true /\ is_Some (error (E (rpc fn params)))
  | createFacultyProfile profile => exists err, E (createFacultyProfile profile) = Rejected err
  | _ => False
  end.

(** The names of the arguments of a call. *)
Definition param_names (params : Params) : list string := map fst params.

(** The reads of the student dashboard. *)
Definition profile_query (user : User.t) : Cmd :=
  single_student {| from := "students"; select := "*";
                    eq := [("id", Some (User.id user))]; order := None |}.

Definition results_query (user : User.t) : Cmd :=
  select_quiz_results {| from := "quiz_results"; select := "*, quizzes(*)";
                         eq := [("student_id", Some (User.id user))];
                         order := Some ("taken_at", false) |}.

Definition analytics_query (user : User.t) : Cmd :=
  select_quiz_results {| from := "quiz_results"; select := "*";
                         eq := [("student_id", Some (User.id user))]; order := None |}.

Definition classmates_query (profile : Student.t) : Cmd :=
  select_students {| from := "students"; select := "*";
                     eq := [("department", Student.department profile);
                            ("section", Student.section profile)];
                     order := None |}.

Definition leaderboard_query (profile : Student.t) : Cmd :=
  select_students {| from := "students"; select := "*";
                     eq := [("department", Student.department profile);
                            ("section", Student.section profile)];
                     order := Some ("score", false) |}.

(** A fetch that failed: it returned an error or no data. *)
Definition failed {T : Type} (r : PostgrestResponse T) : Prop :=
  is_Some (error r) \/ data r = None.

(** A state setter that stores an empty array. *)
Definition stores_empty_array (c : Cmd) : bool :=
  match c with
  | setQuizResults [] | setClassmates [] | setLeaderboard [] => true
  | _ => false
  end.

(** The fields of the form that are filled in (truthy). *)
Definition filled (formData : gmap string string) (fields : list string) : bool :=
  forallb (fun f => negb (Js.not (formData !! f))) fields.

(** The three calls [handleSubmit] can make, for a given form. *)
Definition signUp_call (formData : gmap string string) : Cmd :=
  auth_signUp (formData !! "email") (formData !! "password")
    (Some [("full_name", formData !! "name");
           ("user_type", Some "student");
           ("username", formData !! "username");
           ("department", formData !! "class");
           ("section", formData !! "section")]).

Definition student_profile_call (formData : gmap string string) : Cmd :=
  rpc "create_student_profile"
    [("user_email", formData !! "email");
     ("department", formData !! "class");
     ("section", formData !! "section");
     ("username", formData !! "username")].

Definition faculty_profile_call (formData : gmap string string) : Cmd :=
  createFacultyProfile
    [("email", formData !! "email");
     ("department", formData !! "department");
     ("section", formData !! "section");
     ("username", formData !! "username")].

Module Sample.

Definition jdoe : User.t := User.make "u-1" (Some "jdoe@example.edu").

(** Nobody is signed in and every request fails. *)
Definition signed_out : Env := fun c =>
  match c as c' return Resp c' with
  | auth_getSession => {| session_of := None; session_error := None |}
  | auth_signUp _ _ _ =>
      {| auth_session := None; auth_error := Some (Error.make "Signups not allowed") |}
  | auth_signInWithPassword _ _ =>
      {| auth_session := None; auth_error := Some (Error.make "Invalid login credentials") |}
  | rpc _ _ => Failure (Error.make "permission denied")
  | createFacultyProfile _ => Rejected (Thrown.make (Some "permission denied"))
  | single_student _ => Failure (Error.make "JWT expired")
  | select_students _ => Failure (Error.make "JWT expired")
  | select_quiz_results _ => Failure (Error.make "JWT expired")
  | localStorage_getItem _ => None
  | _ => tt
  end.

(** [jdoe] is signed in, the stored role is [role], the auth calls
    succeed, and the profile-creation calls fail when [provisioning] is
    [false]. *)
Definition signed_in (role : option string) (provisioning : bool) : Env := fun c =>
  match c as c' return Resp c' with
  | auth_getSession =>
      {| session_of := Some (Session.make (Some jdoe)); session_error := None |}
  | auth_signUp _ _ _ =>
      {| auth_session := Some (Session.make (Some jdoe)); auth_error := None |}
  | auth_signInWithPassword _ _ =>
      {| auth_session := Some (Session.make (Some jdoe)); auth_error := None |}
  | rpc _ _ =>
      if provisioning then Success tt
      else Failure (Error.make "function not found")
  | createFacultyProfile _ =>
      if provisioning then Returned tt
      else Rejected (Thrown.make (Some "duplicate key value violates unique constraint"))
  | single_student _ => Success (Student.make "u-1" (Some "CS") (Some "A") (Some 80%float))
  | select_students _ => Success []
  | select_quiz_results _ => Success []
  | localStorage_getItem key => if String.eqb key "userType" then role else None
  | _ => tt
  end.

(** A filled-in sign-up form. *)
Definition form : gmap string string :=
  SignupPage.handleInputChange "password" "s3cret"
    (SignupPage.handleInputChange "department" "CS"
       (SignupPage.handleInputChange "username" "jdoe"
          (SignupPage.handleInputChange "section" "A"
             (SignupPage.handleInputChange "class" "CS"
                (SignupPage.handleInputChange "email" "jdoe@example.edu"
                   (SignupPage.handleInputChange "name" "J. Doe"
                      SignupPage.initialFormData)))))).

(** A dashboard environment: [jdoe] is signed in and the three kinds of
    table reads are answered as given. *)
Definition dashboard
  (profile : PostgrestResponse Student.t)
  (students : PostgrestResponse (list Student.t))
  (results : PostgrestResponse (list QuizResult.t)) : Env := fun c =>
  match c as c' return Resp c' -> Resp c' with
  | single_student _ => fun _ => profile
  | select_students _ => fun _ => students
  | select_quiz_results _ => fun _ => results
  | _ => fun other => other
  end (signed_in (Some "student") true c).

(** A quiz that has been handed out and not graded yet. *)
Definition ungraded : QuizResult.t := QuizResult.make "u-1" "pending" None.

(** A dashboard environment in which the read of the classmates fails and
    the read of the leaderboard, the one that is ordered, gives [rows]. *)
Definition classmates_unavailable (rows : list Student.t) : Env := fun c =>
  match c as c' return Resp c' -> Resp c' with
  | select_students q => fun _ =>
      match order q with
      | None => Failure (Error.make "canceling statement due to statement timeout")
      | Some _ => Success rows
      end
  | _ => fun other => other
  end (signed_in (Some "student") true c).

End Sample.

(** A sample world for the handlers of module [Page]: [base] answers the
    commands, [profile] the reads of a profile id, and the Google sign-in
    ends as [google]. *)
Definition sample_world
  (base : Env) (profile : PostgrestResponse Page.IdRow) (google : Outcome unit)
  : Page.World := fun c =>
  match c as c' return Page.Answer c' with
  | Page.core c => base c
  | Page.single_id _ => profile
  | Page.signInWithGoogle _ => google
  | _ => tt
  end.

(** The thrown values on which the [catch] block of the sign-up form
    throws itself: [null], [undefined], and a value whose [message] is truthy
    and no string. *)
Definition catch_throws (err : Thrown.t) : bool :=
  match err with
  | Thrown.null | Thrown.undefined | Thrown.value (Thrown.not_text true) => true
  | _ => false
  end.

(** The messages a run passes to [setError], in order. *)
Definition errors_shown (t : list Cmd) : list string :=
  omap (fun c => match c with setError msg => Some msg | _ => None end) t.

(** A call of [supabase.auth]. *)
Definition is_auth_call (c : Cmd) : bool :=
  match c with
  | auth_getSession | auth_signUp _ _ _ | auth_signInWithPassword _ _ => true
  | _ => false
  end.

(** A call that leaves the browser. *)
Definition is_remote (c : Cmd) : bool :=
  match c with
  | rpc _ _ | createFacultyProfile _ => true
  | c => is_auth_call c || is_table_read c
  end.

(** The fields that [handleSubmit] requires on a tab, and the message it
    shows when one is missing. *)
Definition required_fields (userType : SignupPage.UserType) : list string :=
  match userType with
  | SignupPage.student => ["class"; "section"; "username"; "email"; "password"]
  | SignupPage.faculty => ["department"; "section"; "username"]
  end.

Definition missing_field_message (userType : SignupPage.UserType) : string :=
  match userType with
  | SignupPage.student => "All fields are required for students."
  | SignupPage.faculty => "Department, section, and username are required for faculty."
  end.

(** The string contains the character. *)
Fixpoint has_char (c : ascii) (s : string) : bool :=
  match s with
  | EmptyString => false
  | String d rest => Ascii.eqb d c || has_char c rest
  end.

(** The string consists of white space only: it is a sequence of the code
    points that [trim] removes. *)
Inductive Blank : string -> Prop :=
| Blank_empty : Blank EmptyString
| Blank_space (code_point : N) (rest : string) :
    In code_point Js.WhiteSpace -> Blank rest -> Blank (Js.utf8 code_point +:+ rest).

(** A name that is missing or consists of white space only. *)
Definition no_name (v : Js.value) : Prop :=
  match v with
  | None => True
  | Some n => Blank n
  end.

(** [s] is [piece], or [piece] followed by the separator and more. *)
Definition starts_with_piece (s piece : string) (sep : ascii) : Prop :=
  s = piece \/ exists rest, s = piece +:+ String sep rest.

(* ===================================================================== *)
(** ** Routing after the session check *)
(* ===================================================================== *)

(** Unfold one handler and evaluate its run as far as the environment's
    answers are known. *)
Ltac run_handler := unfold trace; cbn -[String.eqb Js.or_str].

Section Routing.

Variable E : Env.

Lemma handleAuth_no_session :
  session_of (E auth_getSession) = None ->
  trace E AuthCallbackPage.handleAuth = [auth_getSession; router_replace "/login?error=auth"].
Proof.
  intros Hs. unfold AuthCallbackPage.handleAuth. run_handler. now rewrite Hs.
Qed.

Lemma handleAuth_session_error :
  is_Some (session_error (E auth_getSession)) ->
  trace E AuthCallbackPage.handleAuth = [auth_getSession; router_replace "/login?error=auth"].
Proof.
  intros [e He]. unfold AuthCallbackPage.handleAuth. run_handler. rewrite He.
  now destruct (session_of (E auth_getSession)).
Qed.

Lemma HomePage_signed_out session status :
  status <> HomePage.loading ->
  session ≫= HomePage.user = None ->
  trace E (HomePage.effect session status) = [router_push "/login"].
Proof.
  intros Hst Hs. unfold HomePage.effect. rewrite Hs. now destruct status.
Qed.

(** The run of [handleAuth] when the session fetch gave a session and no
    error: the stored role is read, the profile is provisioned for it if
    the session has a user, a failure is logged, and the page is replaced
    by the role's dashboard. *)
Lemma handleAuth_session s :
  session_of (E auth_getSession) = Some s ->
  session_error (E auth_getSession) = None ->
  let userType := Js.or_str (E (localStorage_getItem "userType")) "student" in
  let fn := if String.eqb userType "faculty"
            then "create_faculty_profile" else "create_student_profile" in
  let label := if String.eqb userType "faculty"
               then "Faculty profile creation error:"
               else "Student profile creation error:" in
  let url := if String.eqb userType "faculty"
             then "/faculty/dashboard" else "/student/dashboard" in
  trace E AuthCallbackPage.handleAuth =
    ([auth_getSession; localStorage_getItem "userType"] ++
    match Session.user s with
    | None => []
    | Some user =>
        rpc fn [("user_email", User.email user)] ::
        match error (E (rpc fn [("user_email", User.email user)])) with
        | Some rpcError => [console_error [label; Error.message rpcError]]
        | None => []
        end
    end ++ [router_replace url])%list.
Proof.
  intros Hs He. unfold AuthCallbackPage.handleAuth. run_handler. rewrite Hs, He.
  run_handler. unfold AuthCallbackPage.dashboard.
  destruct (Session.user s) as [user|]; [|reflexivity].
  unfold AuthCallbackPage.provision. run_handler.
  destruct (String.eqb _ "faculty"); run_handler;
    destruct (E (rpc _ _)) as [d|e]; reflexivity.
Qed.

End Routing.

Lemma or_str_faculty (stored : Js.value) :
  String.eqb (Js.or_str stored "student") "faculty" = bool_decide (stored = Some "faculty").
Proof.
  destruct stored as [v|]; [|reflexivity]. unfold Js.or_str.
  destruct (String.eqb v "") eqn:Hv.
  - apply String.eqb_eq in Hv. now subst.
  - destruct (String.eqb v "faculty") eqn:Hf.
    + apply String.eqb_eq in Hf. now subst.
    + apply String.eqb_neq in Hf. symmetry. apply bool_decide_eq_false. congruence.
Qed.

(** C4.  When the session is absent or the session fetch returned an error,
    the OAuth callback page navigates to the login route (with the query
    [error=auth]), creates no profile and reads no table, and it does the
    same in both cases; the root page, once [useSession] is no longer
    loading, sends a visitor without a session user to [/login] and does
    nothing else. *)
Theorem no_session_routes_to_login (E : Env) :
  (session_of (E auth_getSession) = None \/ is_Some (session_error (E auth_getSession)) ->
   goes_to_login_only (trace E AuthCallbackPage.handleAuth) /\
   forall E' : Env,
     session_of (E' auth_getSession) = None ->
     session_error (E' auth_getSession) = None ->
     trace E AuthCallbackPage.handleAuth = trace E' AuthCallbackPage.handleAuth) /\
  (forall session status,
     status <> HomePage.loading ->
     session ≫= HomePage.user = None ->
     goes_to_login_only (trace E (HomePage.effect session status))).
Proof.
  split.
  - intros H.
    assert (Ht : trace E AuthCallbackPage.handleAuth =
                 [auth_getSession; router_replace "/login?error=auth"])
      by (destruct H; [now apply handleAuth_no_session | now apply handleAuth_session_error]).
    split.
    + rewrite Ht. now repeat split.
    + intros E' Hs _. now rewrite Ht, (handleAuth_no_session E' Hs).
  - intros session status Hst Hs. rewrite (HomePage_signed_out E session status Hst Hs).
    now repeat split.
Qed.

Lemma no_session_routes_to_login_witness :
  goes_to_login_only (trace Sample.signed_out AuthCallbackPage.handleAuth) /\
  goes_to_login_only (trace Sample.signed_out (HomePage.effect None HomePage.unauthenticated)).
Proof.
  split.
  - apply (proj1 (no_session_routes_to_login Sample.signed_out)). left. reflexivity.
  - apply (proj2 (no_session_routes_to_login Sample.signed_out)).
    + discriminate.
    + reflexivity.
Defined.

(** C5.  On the OAuth callback page with a session present, the profile is
    provisioned for the role stored in [localStorage] and, whether the
    remote procedure succeeded or returned an error (which is only logged),
    the page is then replaced by that role's dashboard: [/faculty/dashboard]
    when the stored role is ["faculty"], [/student/dashboard] otherwise,
    also when nothing is stored.  Nothing else of the environment is
    consulted, so an identity that already has a faculty profile and arrives
    with the stored role ["student"] is provisioned and routed as a
    student. *)
Theorem oauth_landing_routes_by_stored_role (E : Env) (s : Session.t) (user : User.t) :
  session_of (E auth_getSession) = Some s ->
  session_error (E auth_getSession) = None ->
  Session.user s = Some user ->
  let faculty := bool_decide (E (localStorage_getItem "userType") = Some "faculty") in
  let fn := if faculty then "create_faculty_profile" else "create_student_profile" in
  let url := if faculty then "/faculty/dashboard" else "/student/dashboard" in
  exists logged,
    trace E AuthCallbackPage.handleAuth =
      ([auth_getSession; localStorage_getItem "userType";
        rpc fn [("user_email", User.email user)]] ++ logged ++ [router_replace url])%list /\
    (logged = [] \/ exists args, logged = [console_error args]).
Proof.
  intros Hs He Hu. cbv zeta.
  rewrite (handleAuth_session E s Hs He), Hu, or_str_faculty.
  destruct (bool_decide _); cbn -[String.eqb];
    match goal with
    | |- context [error ?r] => destruct (error r) as [rpcError|]
    end;
    eexists; (split; [reflexivity|]); eauto.
Qed.

Lemma oauth_landing_routes_by_stored_role_witness :
  exists logged,
    trace (Sample.signed_in (Some "student") false) AuthCallbackPage.handleAuth =
      ([auth_getSession; localStorage_getItem "userType";
        rpc "create_student_profile" [("user_email", Some "jdoe@example.edu")]]
       ++ logged ++ [router_replace "/student/dashboard"])%list /\
    (logged = [] \/ exists args, logged = [console_error args]).
Proof.
  apply (oauth_landing_routes_by_stored_role
           (Sample.signed_in (Some "student") false) (Session.make (Some Sample.jdoe)) Sample.jdoe);
    reflexivity.
Defined.

(** C9.  The root page sends every visitor who has a session user to
    [/student/dashboard], whatever the environment holds about the user's
    role: the effect issues this one navigation and reads nothing. *)
Theorem home_page_always_student_dashboard
  (E : Env) (session : option HomePage.NextAuthSession) (status : HomePage.Status) (u : User.t) :
  status <> HomePage.loading ->
  session ≫= HomePage.user = Some u ->
  trace E (HomePage.effect session status) = [router_push "/student/dashboard"].
Proof.
  intros Hst Hs. unfold HomePage.effect. rewrite Hs. now destruct status.
Qed.

Lemma home_page_always_student_dashboard_witness :
  trace (Sample.signed_in (Some "faculty") true)
        (HomePage.effect (Some {| HomePage.user := Some Sample.jdoe |}) HomePage.authenticated)
  = [router_push "/student/dashboard"].
Proof.
  apply (home_page_always_student_dashboard _ _ _ Sample.jdoe).
  - discriminate.
  - reflexivity.
Defined.

(* ===================================================================== *)
(** ** The sign-up form and the login form *)
(* ===================================================================== *)

(** Name the fields of the form, so that evaluation stops at them. *)
Ltac name_fields fd :=
  unfold filled, signUp_call, student_profile_call, faculty_profile_call;
  cbn [forallb];
  generalize (fd !! "class") (fd !! "section") (fd !! "username") (fd !! "email")
             (fd !! "password") (fd !! "department") (fd !! "name");
  intros f_class f_section f_username f_email f_password f_department f_name.

Section Signup.

Variable E : Env.
Variable formData : gmap string string.

(** The run of [handleSubmit] on the student tab. *)
Lemma handleSubmit_student :
  trace E (SignupPage.handleSubmit SignupPage.student formData) =
    ([setError ""; setIsLoading true] ++
     (if filled formData ["class"; "section"; "username"; "email"; "password"] then
        signUp_call formData ::
        match auth_error (E (signUp_call formData)) with
        | Some error => [setError (Error.message error); setIsLoading false]
        | None =>
            student_profile_call formData ::
            match error (E (student_profile_call formData)) with
            | Some rpcError => [setError (Error.message rpcError); setIsLoading false]
            | None => [router_push "/student/dashboard"]
            end
        end
      else [setError "All fields are required for students."; setIsLoading false]) ++
     [setIsLoading false])%list.
Proof.
  unfold SignupPage.handleSubmit. revert E. name_fields formData. intros E'.
  run_handler.
  destruct (Js.not f_class); [reflexivity|].
  destruct (Js.not f_section); [reflexivity|].
  destruct (Js.not f_username); [reflexivity|].
  destruct (Js.not f_email); [reflexivity|].
  destruct (Js.not f_password); [reflexivity|].
  run_handler.
  destruct (auth_error (E' (auth_signUp _ _ _))); [reflexivity|].
  run_handler.
  destruct (E' (rpc _ _)); reflexivity.
Qed.

(** What the [catch] block of [handleSubmit] issues. *)
Lemma on_error_trace (err : Thrown.t) :
  exists logged shown,
    trace E (SignupPage.on_error err) = console_error logged :: shown /\
    (shown = [] \/ exists msg, shown = [setError msg]).
Proof.
  unfold SignupPage.on_error.
  destruct err as [| |[message|[|]]]; run_handler;
    try (destruct (negb _ && _); run_handler); eauto 6.
Qed.

(** The run of [handleSubmit] on the faculty tab. *)
Lemma handleSubmit_faculty :
  trace E (SignupPage.handleSubmit SignupPage.faculty formData) =
    ([setError ""; setIsLoading true] ++
     (if filled formData ["department"; "section"; "username"] then
        faculty_profile_call formData ::
        match E (faculty_profile_call formData) with
        | Returned _ => [router_replace "/faculty/dashboard"]
        | Rejected err => trace E (SignupPage.on_error err)
        end
      else [setError "Department, section, and username are required for faculty.";
            setIsLoading false]) ++
     [setIsLoading false])%list.
Proof.
  unfold SignupPage.handleSubmit. revert E. name_fields formData. intros E'.
  run_handler.
  destruct (Js.not f_department); [reflexivity|].
  destruct (Js.not f_section); [reflexivity|].
  destruct (Js.not f_username); [reflexivity|].
  run_handler.
  destruct (E' (createFacultyProfile _)) as [[]|err]; [reflexivity|].
  unfold SignupPage.on_error.
  destruct err as [| |[message|[|]]]; run_handler;
    try (destruct (negb _ && _)); reflexivity.
Qed.

End Signup.

Lemma create_if_absent_twice (email : string) (p : Backend.Profile)
  (table : gmap string Backend.Profile) :
  Backend.create_if_absent email p (Backend.create_if_absent email p table) =
  Backend.create_if_absent email p table.
Proof.
  unfold Backend.create_if_absent.
  destruct (table !! email) as [q|] eqn:Hq.
  - now rewrite Hq.
  - now rewrite lookup_insert_eq.
Qed.

Lemma serve_twice (c : Cmd) (db : Backend.Db) :
  Backend.serve c (Backend.serve c db) = Backend.serve c db.
Proof.
  destruct c; try reflexivity; cbn -[String.eqb].
  - destruct (String.eqb fn "create_student_profile"); cbn -[String.eqb];
      [now rewrite create_if_absent_twice|].
    destruct (String.eqb fn "create_faculty_profile"); cbn -[String.eqb];
      [now rewrite create_if_absent_twice|reflexivity].
  - now rewrite create_if_absent_twice.
Qed.

(** "Create if absent" leaves a row for the email, and adds exactly the
    given one when there was none. *)
Lemma create_if_absent_row (email : string) (p : Backend.Profile)
  (table : gmap string Backend.Profile) :
  is_Some (Backend.create_if_absent email p table !! email) /\
  (table !! email = None ->
   Backend.create_if_absent email p table !! email = Some p /\
   size (Backend.create_if_absent email p table) = S (size table)).
Proof.
  unfold Backend.create_if_absent.
  destruct (table !! email) as [q|] eqn:Hq.
  - split; [rewrite Hq; eauto|discriminate].
  - split; [rewrite lookup_insert_eq; eauto|]. intros _.
    split; [apply lookup_insert_eq|now apply map_size_insert_None].
Qed.

(** C6.  A sign-up submission with the fields of its tab filled in, and on
    the student tab with an account created by [auth.signUp] without an
    error, issues exactly one profile-creation call: the one of the tab that
    was selected when the form was submitted, with the fields of the form,
    whatever that call is answered; when it is answered without an error the
    form navigates to the tab's dashboard.  Against the remote procedures as
    the spec describes them, the call leaves a profile row for the email of
    the form in the table of that role, the row of the form when there was
    none before; issuing it a second time changes nothing in the database
    (no second row) and is answered without an error. *)
Theorem signup_creates_profile_once
  (E : Env) (userType : SignupPage.UserType) (formData : gmap string string) :
  filled formData (required_fields userType) = true ->
  (userType = SignupPage.student -> auth_error (E (signUp_call formData)) = None) ->
  let creation :=
    match userType with
    | SignupPage.student => student_profile_call formData
    | SignupPage.faculty => faculty_profile_call formData
    end in
  let table :=
    match userType with
    | SignupPage.student => Backend.student_profiles
    | SignupPage.faculty => Backend.faculty_profiles
    end in
  let url :=
    match userType with
    | SignupPage.student => "/student/dashboard"
    | SignupPage.faculty => "/faculty/dashboard"
    end in
  let row :=
    {| Backend.department :=
         formData !! match userType with
                     | SignupPage.student => "class"
                     | SignupPage.faculty => "department"
                     end;
       Backend.section := formData !! "section";
       Backend.username := formData !! "username" |} in
  List.filter is_profile_creation (trace E (SignupPage.handleSubmit userType formData))
    = [creation] /\
  (~ provisioning_failed E creation ->
   navigations (trace E (SignupPage.handleSubmit userType formData)) = [url]) /\
  forall db : Backend.Db,
    let email := default "" (formData !! "email") in
    let db1 := Backend.serve creation db in
    is_Some (table db1 !! email) /\
    (table db !! email = None ->
     table db1 !! email = Some row /\ Backend.rows db1 = S (Backend.rows db)) /\
    Backend.serve creation db1 = db1 /\
    Backend.rows (Backend.serve creation db1) = Backend.rows db1 /\
    ~ provisioning_failed (Backend.answers E) creation.
Proof.
  intros Hfilled Haccount. cbv zeta. split; [|split].
  - destruct userType; cbn [required_fields] in Hfilled.
    + rewrite handleSubmit_student, Hfilled, (Haccount eq_refl).
      destruct (error _); reflexivity.
    + rewrite handleSubmit_faculty, Hfilled.
      destruct (E (faculty_profile_call formData)) as [[]|err]; [reflexivity|].
      destruct (on_error_trace E err) as (logged & shown & -> & [->|[msg ->]]);
        reflexivity.
  - intros Hok. destruct userType; cbn [required_fields] in Hfilled.
    + rewrite handleSubmit_student, Hfilled, (Haccount eq_refl).
      destruct (error (E (student_profile_call formData))) as [rpcError|] eqn:Herr;
        [|reflexivity].
      exfalso. apply Hok. split; [reflexivity|].
      unfold student_profile_call in Herr. rewrite Herr. eauto.
    + rewrite handleSubmit_faculty, Hfilled.
      destruct (E (faculty_profile_call formData)) as [[]|err] eqn:Hans; [reflexivity|].
      exfalso. apply Hok. exists err. exact Hans.
  - intros db. rewrite serve_twice.
    destruct userType; cbn -[Backend.create_if_absent].
    + destruct (create_if_absent_row
                  (default "" (formData !! "email"))
                  (Backend.profile_of
                     [("user_email", formData !! "email"); ("department", formData !! "class");
                      ("section", formData !! "section");
                      ("username", formData !! "username")])
                  (Backend.student_profiles db)) as [Hrow Hnew].
      split; [exact Hrow|]. split; [|repeat split].
      * intros Habsent. destruct (Hnew Habsent) as [Hlookup Hsize].
        split; [exact Hlookup|]. unfold Backend.rows. cbn -[Backend.create_if_absent].
        rewrite Hsize. reflexivity.
      * intros [_ [e He]]. discriminate He.
    + destruct (create_if_absent_row
                  (default "" (formData !! "email"))
                  (Backend.profile_of
                     [("email", formData !! "email");
                      ("department", formData !! "department");
                      ("section", formData !! "section");
                      ("username", formData !! "username")])
                  (Backend.faculty_profiles db)) as [Hrow Hnew].
      split; [exact Hrow|]. split; [|repeat split].
      * intros Habsent. destruct (Hnew Habsent) as [Hlookup Hsize].
        split; [exact Hlookup|]. unfold Backend.rows. cbn -[Backend.create_if_absent].
        rewrite Hsize. lia.
      * intros [err Herr]. discriminate Herr.
Qed.

Lemma signup_creates_profile_once_witness :
  List.filter is_profile_creation
    (trace (Sample.signed_in None false)
           (SignupPage.handleSubmit SignupPage.student Sample.form))
  = [student_profile_call Sample.form].
Proof.
  apply (signup_creates_profile_once
           (Sample.signed_in None false) SignupPage.student Sample.form).
  - reflexivity.
  - intros _. reflexivity.
Defined.

(** C3, as the claim states it, fails on the sign-up form: the remote
    procedure returns an error and the form does not navigate. *)
Lemma signup_provisioning_failure_blocks_navigation :
  let E := Sample.signed_in None false in
  let t := trace E (SignupPage.handleSubmit SignupPage.student Sample.form) in
  In (student_profile_call Sample.form) t /\
  provisioning_failed E (student_profile_call Sample.form) /\
  navigations t = [].
Proof.
  cbv zeta. split; [|split].
  - vm_compute. tauto.
  - split; [reflexivity|]. vm_compute. eauto.
  - reflexivity.
Qed.

(** A failed provisioning call on the sign-up form ends the submission
    without a navigation. *)
Lemma handleSubmit_failure_no_navigation
  (E : Env) (userType : SignupPage.UserType) (formData : gmap string string) (c : Cmd) :
  In c (trace E (SignupPage.handleSubmit userType formData)) ->
  provisioning_failed E c ->
  navigations (trace E (SignupPage.handleSubmit userType formData)) = [].
Proof.
  intros Hin Hfail. destruct userType.
  - rewrite handleSubmit_student in *.
    destruct (filled formData _); [|reflexivity].
    destruct (auth_error _); [reflexivity|].
    destruct (error (E (student_profile_call formData))) eqn:Herr; [reflexivity|].
    exfalso. cbn in Hin.
    destruct Hin as [<-|[<-|[<-|[<-|[<-|[<-|[]]]]]]]; try exact Hfail.
    destruct Hfail as [_ [e He]]. unfold student_profile_call in Herr. congruence.
  - rewrite handleSubmit_faculty in *.
    destruct (filled formData _); [|reflexivity].
    destruct (E (faculty_profile_call formData)) as [[]|err] eqn:Hans.
    + exfalso. cbn in Hin.
      destruct Hin as [<-|[<-|[<-|[<-|[<-|[]]]]]]; try exact Hfail.
      destruct Hfail as [err Herr]. unfold faculty_profile_call in Hans. congruence.
    + destruct (on_error_trace E err) as (logged & shown & -> & [->|[msg ->]]);
        reflexivity.
Qed.

(** The run of the faculty tab when [createFacultyProfile] throws: the
    thrown value is logged; the [catch] block then shows a message, or
    throws itself; the loading flag is reset in both cases. *)
Lemma handleSubmit_faculty_rejected
  (E : Env) (formData : gmap string string) (err : Thrown.t) :
  filled formData ["department"; "section"; "username"] = true ->
  E (faculty_profile_call formData) = Rejected err ->
  exists shown result,
    run E (SignupPage.on_error err) = (console_error [Thrown.print err] :: shown, result) /\
    run E (SignupPage.handleSubmit SignupPage.faculty formData) =
      (([setError ""; setIsLoading true; faculty_profile_call formData;
         console_error [Thrown.print err]] ++ shown ++ [setIsLoading false])%list,
       match result with
       | Normal _ => Normal tt
       | Uncaught thrown => Uncaught thrown
       end).
Proof.
  unfold SignupPage.handleSubmit. revert E. name_fields formData. intros E.
  intros Hfilled Hrejected.
  apply andb_prop in Hfilled as [Hdepartment Hfilled].
  apply andb_prop in Hfilled as [Hsection Hfilled].
  apply andb_prop in Hfilled as [Husername _].
  apply negb_true_iff in Hdepartment, Hsection, Husername.
  rewrite Hdepartment, Hsection, Husername. cbn -[String.eqb Js.or_str].
  rewrite Hrejected. unfold SignupPage.on_error.
  destruct err as [| |[message|[|]]]; cbn -[String.eqb Js.or_str];
    try (destruct (negb _ && _); cbn -[String.eqb Js.or_str]);
    eexists _, _; (split; [reflexivity|]);
    repeat match goal with
           | |- context [Normal (E ?c)] => destruct (E c)
           end;
    reflexivity.
Qed.

(** C3, amended.  On the OAuth callback page a failed provisioning call is
    logged with [console.error] and the page is still replaced by the
    dashboard of the stored role.  On the sign-up form a failed provisioning
    call ends the submission without a navigation.  On the student tab the
    error message of the remote procedure is shown.  On the faculty tab the
    thrown value is logged and the [catch] block shows, for a string message,
    the fixed text about an already registered email when the message
    contains "duplicate" in any case of the letters, else the message, or a
    default text when the message is empty or is no string and falsy; for
    [null], [undefined] and a truthy message that is no string the [catch]
    block throws itself and the error leaves the handler after the loading
    flag is reset. *)
Theorem provisioning_failure_by_flow (E : Env) :
  (forall s user rpcError,
     session_of (E auth_getSession) = Some s ->
     session_error (E auth_getSession) = None ->
     Session.user s = Some user ->
     let faculty := bool_decide (E (localStorage_getItem "userType") = Some "faculty") in
     let fn := if faculty then "create_faculty_profile" else "create_student_profile" in
     let label := if faculty then "Faculty profile creation error:"
                  else "Student profile creation error:" in
     let url := if faculty then "/faculty/dashboard" else "/student/dashboard" in
     error (E (rpc fn [("user_email", User.email user)])) = Some rpcError ->
     provisioning_failed E (rpc fn [("user_email", User.email user)]) /\
     trace E AuthCallbackPage.handleAuth =
       [auth_getSession; localStorage_getItem "userType";
        rpc fn [("user_email", User.email user)];
        console_error [label; Error.message rpcError];
        router_replace url]) /\
  (forall userType formData c,
     In c (trace E (SignupPage.handleSubmit userType formData)) ->
     provisioning_failed E c ->
     navigations (trace E (SignupPage.handleSubmit userType formData)) = []) /\
  (forall formData rpcError,
     filled formData ["class"; "section"; "username"; "email"; "password"] = true ->
     auth_error (E (signUp_call formData)) = None ->
     error (E (student_profile_call formData)) = Some rpcError ->
     trace E (SignupPage.handleSubmit SignupPage.student formData) =
       [setError ""; setIsLoading true; signUp_call formData; student_profile_call formData;
        setError (Error.message rpcError); setIsLoading false; setIsLoading false]) /\
  (forall formData message,
     filled formData ["department"; "section"; "username"] = true ->
     E (faculty_profile_call formData) = Rejected (Thrown.value (Thrown.text message)) ->
     trace E (SignupPage.handleSubmit SignupPage.faculty formData) =
       [setError ""; setIsLoading true; faculty_profile_call formData;
        console_error [message];
        setError (if negb (String.eqb message "") &&
                     Js.includes (Js.toLowerCase message) "duplicate"
                  then "This email or username is already registered. Please log in instead."
                  else if String.eqb message ""
                       then "An error occurred. Please try again."
                       else message);
        setIsLoading false]) /\
  (forall formData,
     filled formData ["department"; "section"; "username"] = true ->
     E (faculty_profile_call formData) = Rejected (Thrown.value (Thrown.not_text false)) ->
     trace E (SignupPage.handleSubmit SignupPage.faculty formData) =
       [setError ""; setIsLoading true; faculty_profile_call formData;
        console_error [""];
        setError "An error occurred. Please try again.";
        setIsLoading false]) /\
  (forall formData err,
     filled formData ["department"; "section"; "username"] = true ->
     E (faculty_profile_call formData) = Rejected err ->
     catch_throws err = true ->
     exists thrown,
       run E (SignupPage.handleSubmit SignupPage.faculty formData) =
         ([setError ""; setIsLoading true; faculty_profile_call formData;
           console_error [Thrown.print err]; setIsLoading false],
          Uncaught thrown)).
Proof.
  split; [|split; [|split; [|split; [|split]]]].
  - intros s user rpcError Hs He Huser. cbv zeta. intros Herr.
    rewrite (handleAuth_session E s Hs He). cbv zeta.
    rewrite or_str_faculty, Huser.
    destruct (bool_decide _); cbn -[String.eqb] in *; rewrite Herr;
      (split; [split; [reflexivity|eauto]|reflexivity]).
  - intros userType formData c. apply handleSubmit_failure_no_navigation.
  - intros formData rpcError Hfilled Hsign Hrpc.
    now rewrite handleSubmit_student, Hfilled, Hsign, Hrpc.
  - intros formData message Hfilled Hrejected.
    rewrite handleSubmit_faculty, Hfilled, Hrejected.
    unfold SignupPage.on_error. run_handler.
    destruct message as [|c message]; [reflexivity|].
    cbn [Js.not String.eqb negb andb Js.or_str].
    destruct (Js.includes _ "duplicate"); reflexivity.
  - intros formData Hfilled Hrejected.
    now rewrite handleSubmit_faculty, Hfilled, Hrejected.
  - intros formData err Hfilled Hrejected Hthrows.
    destruct (handleSubmit_faculty_rejected E formData err Hfilled Hrejected)
      as (shown & result & Hcatch & ->).
    unfold SignupPage.on_error in Hcatch.
    destruct err as [| |[message|[|]]]; try discriminate Hthrows;
      cbn -[String.eqb Js.or_str] in Hcatch; injection Hcatch as <- <-; eauto.
Qed.

Lemma provisioning_failure_by_flow_witness :
  trace (Sample.signed_in (Some "faculty") false) AuthCallbackPage.handleAuth =
    [auth_getSession; localStorage_getItem "userType";
     rpc "create_faculty_profile" [("user_email", Some "jdoe@example.edu")];
     console_error ["Faculty profile creation error:"; "function not found"];
     router_replace "/faculty/dashboard"] /\
  navigations (trace (Sample.signed_in None false)
                 (SignupPage.handleSubmit SignupPage.student Sample.form)) = [] /\
  trace (Sample.signed_in None false)
        (SignupPage.handleSubmit SignupPage.faculty Sample.form) =
    [setError ""; setIsLoading true; faculty_profile_call Sample.form;
     console_error ["duplicate key value violates unique constraint"];
     setError "This email or username is already registered. Please log in instead.";
     setIsLoading false].
Proof.
  split; [|split].
  - apply (proj1 (provisioning_failure_by_flow (Sample.signed_in (Some "faculty") false))
             (Session.make (Some Sample.jdoe)) Sample.jdoe (Error.make "function not found"));
      reflexivity.
  - apply (proj1 (proj2 (provisioning_failure_by_flow (Sample.signed_in None false)))
             SignupPage.student Sample.form (student_profile_call Sample.form)).
    + vm_compute. tauto.
    + split; [reflexivity|]. vm_compute. eauto.
  - apply (proj1 (proj2 (proj2 (proj2 (provisioning_failure_by_flow
                                         (Sample.signed_in None false)))))
             Sample.form "duplicate key value violates unique constraint");
      reflexivity.
Defined.

(** C7, as the claim states it, fails on the OAuth callback page: the remote
    procedure is invoked with the email alone. *)
Lemma oauth_provisioning_passes_email_only :
  let call := rpc "create_faculty_profile" [("user_email", Some "jdoe@example.edu")] in
  In call (trace (Sample.signed_in (Some "faculty") true) AuthCallbackPage.handleAuth) /\
  param_names [("user_email", Some "jdoe@example.edu")] = ["user_email"] /\
  ~ In "department" (param_names [("user_email", Some "jdoe@example.edu")]) /\
  ~ In "section" (param_names [("user_email", Some "jdoe@example.edu")]) /\
  ~ In "username" (param_names [("user_email", Some "jdoe@example.edu")]).
Proof.
  cbv zeta. split; [vm_compute; tauto|]. split; [reflexivity|].
  repeat split; intros [H|[]]; discriminate H.
Qed.

(** C7, amended.  The sign-up form invokes [create_student_profile] with
    the four arguments [user_email], [department], [section] and
    [username], and the helper [createFacultyProfile] with [email],
    [department], [section] and [username]; the OAuth callback page invokes
    [create_student_profile] and [create_faculty_profile] with [user_email]
    alone.  No other remote procedure is invoked by either. *)
Theorem profile_creation_arguments (E : Env) :
  (forall userType formData fn params,
     In (rpc fn params) (trace E (SignupPage.handleSubmit userType formData)) ->
     fn = "create_student_profile" /\
     param_names params = ["user_email"; "department"; "section"; "username"]) /\
  (forall userType formData profile,
     In (createFacultyProfile profile) (trace E (SignupPage.handleSubmit userType formData)) ->
     param_names profile = ["email"; "department"; "section"; "username"]) /\
  (forall fn params,
     In (rpc fn params) (trace E AuthCallbackPage.handleAuth) ->
     (fn = "create_student_profile" \/ fn = "create_faculty_profile") /\
     param_names params = ["user_email"]).
Proof.
  split; [|split].
  - intros userType formData fn params Hin. destruct userType.
    + rewrite handleSubmit_student in Hin.
      destruct (filled formData _);
        [destruct (auth_error _); [|destruct (error _)]|];
        cbn in Hin; repeat (destruct Hin as [Hin|Hin]; [try discriminate Hin|]);
        try contradiction; injection Hin as <- <-; now split.
    + rewrite handleSubmit_faculty in Hin.
      destruct (filled formData _);
        [destruct (E (faculty_profile_call formData)) as [[]|err];
         [|destruct (on_error_trace E err) as (logged & shown & Ht & [->|[msg ->]]);
           rewrite Ht in Hin]|];
        cbn in Hin; repeat (destruct Hin as [Hin|Hin]; [try discriminate Hin|]);
        contradiction.
  - intros userType formData profile Hin. destruct userType.
    + rewrite handleSubmit_student in Hin.
      destruct (filled formData _);
        [destruct (auth_error _); [|destruct (error _)]|];
        cbn in Hin; repeat (destruct Hin as [Hin|Hin]; [try discriminate Hin|]);
        contradiction.
    + rewrite handleSubmit_faculty in Hin.
      destruct (filled formData _);
        [destruct (E (faculty_profile_call formData)) as [[]|err];
         [|destruct (on_error_trace E err) as (logged & shown & Ht & [->|[msg ->]]);
           rewrite Ht in Hin]|];
        cbn in Hin; repeat (destruct Hin as [Hin|Hin]; [try discriminate Hin|]);
        try contradiction; injection Hin as <-; reflexivity.
  - intros fn params Hin. unfold AuthCallbackPage.handleAuth in Hin. revert Hin. run_handler.
    destruct (session_of (E auth_getSession)) as [s|];
      [destruct (session_error (E auth_getSession))|];
      run_handler; try (intros [H|[H|[]]]; discriminate H).
    destruct (Session.user s) as [user|]; run_handler;
      [|intros [H|[H|[H|[]]]]; discriminate H].
    unfold AuthCallbackPage.provision.
    destruct (String.eqb _ "faculty"); run_handler;
      destruct (E (rpc _ _)); run_handler; intros Hin;
      repeat (destruct Hin as [Hin|Hin]; [try discriminate Hin|]);
      try contradiction; injection Hin as <- <-; split; auto.
Qed.

Lemma profile_creation_arguments_witness :
  param_names [("user_email", Sample.form !! "email"); ("department", Sample.form !! "class");
               ("section", Sample.form !! "section"); ("username", Sample.form !! "username")]
  = ["user_email"; "department"; "section"; "username"].
Proof.
  apply (proj1 (profile_creation_arguments (Sample.signed_in None true))
           SignupPage.student Sample.form "create_student_profile").
  vm_compute. tauto.
Defined.

(** C10.  A password sign-in on the login page that succeeds pushes
    [/faculty/dashboard] when the active tab is ["faculty"] and
    [/student/dashboard] for any other tab; the handler reads nothing about
    the identity's profile, it issues the sign-in call and this navigation
    between its state updates. *)
Theorem login_redirect_follows_active_tab
  (E : Env) (email password activeTab : string) (session : Session.t) :
  auth_error (E (auth_signInWithPassword email password)) = None ->
  auth_session (E (auth_signInWithPassword email password)) = Some session ->
  trace E (LoginPage.handleManualAuth false email password activeTab) =
    [setIsLoading true; setError ""; auth_signInWithPassword email password;
     router_push (if String.eqb activeTab "faculty"
                  then "/faculty/dashboard" else "/student/dashboard");
     setIsLoading false].
Proof.
  intros Herr Hsession. unfold LoginPage.handleManualAuth. run_handler.
  now rewrite Herr, Hsession.
Qed.

Lemma login_redirect_follows_active_tab_witness :
  trace (Sample.signed_in (Some "student") true)
        (LoginPage.handleManualAuth false "jdoe@example.edu" "s3cret" "faculty") =
    [setIsLoading true; setError ""; auth_signInWithPassword "jdoe@example.edu" "s3cret";
     router_push "/faculty/dashboard"; setIsLoading false].
Proof.
  apply (login_redirect_follows_active_tab
           (Sample.signed_in (Some "student") true) "jdoe@example.edu" "s3cret" "faculty"
           (Session.make (Some Sample.jdoe))); reflexivity.
Defined.

(* ===================================================================== *)
(** ** The statistics of the student dashboard *)
(* ===================================================================== *)

Section FindIndex.

Context {A : Type} (p : A -> bool).

Lemma findIndex_from_first (l : list A) (i : Z) (k : nat) (x : A) :
  l !! k = Some x ->
  p x = true ->
  (forall j y, (j < k)%nat -> l !! j = Some y -> p y = false) ->
  Js.findIndex_from p l i = (i + Z.of_nat k)%Z.
Proof.
  revert i k. induction l as [|y l IH]; intros i k Hk Hx Hbefore; [discriminate Hk|].
  destruct k as [|k]; cbn in *.
  - injection Hk as ->. rewrite Hx. lia.
  - rewrite (Hbefore 0%nat y); [|lia|reflexivity].
    rewrite (IH (i + 1)%Z k Hk Hx); [lia|].
    intros j z Hj Hz. apply (Hbefore (S j)); [lia|exact Hz].
Qed.

Lemma findIndex_from_absent (l : list A) (i : Z) :
  (forall x, In x l -> p x = false) ->
  Js.findIndex_from p l i = (-1)%Z.
Proof.
  revert i. induction l as [|y l IH]; intros i Hnone; [reflexivity|].
  cbn. rewrite (Hnone y); [|now left].
  apply IH. intros x Hx. apply Hnone. now right.
Qed.

End FindIndex.

(** The rank of a user whose id first occurs at index [k] of the
    leaderboard is [k + 1], and the rank of a user on no row is [1]. *)
Lemma classRank_first_occurrence (leaderboard : list Student.t) (user : User.t) :
  (forall (k : nat) (row : Student.t),
     leaderboard !! k = Some row ->
     Student.id row = User.id user ->
     (forall j other, (j < k)%nat -> leaderboard !! j = Some other ->
                      Student.id other <> User.id user) ->
     StudentDashboard.classRank leaderboard user = (Z.of_nat k + 1)%Z) /\
  ((forall row, In row leaderboard -> Student.id row <> User.id user) ->
   StudentDashboard.classRank leaderboard user = 1%Z).
Proof.
  unfold StudentDashboard.classRank, Js.findIndex. split.
  - intros k row Hk Hid Hbefore.
    rewrite (findIndex_from_first _ leaderboard 0 k row Hk).
    + unfold Js.or_int. destruct (Z.eqb_spec (0 + Z.of_nat k + 1) 0); lia.
    + now apply String.eqb_eq.
    + intros j other Hj Hother. apply String.eqb_neq. eauto.
  - intros Habsent. rewrite findIndex_from_absent; [reflexivity|].
    intros row Hrow. apply String.eqb_neq. auto.
Qed.

(** Rows with distinct keys: two positions that hold the same key are one
    position. *)
Lemma distinct_keys_one_position {A K : Type} (key : A -> K) (l : list A)
  (i j : nat) (x y : A) :
  NoDup (map key l) ->
  l !! i = Some x -> l !! j = Some y -> key x = key y -> i = j.
Proof.
  intros Hdistinct. revert i j.
  induction l as [|z l IH]; intros i j Hi Hj Hkey; [discriminate Hi|].
  cbn in Hdistinct. apply NoDup_cons in Hdistinct as [Hfresh Hdistinct].
  assert (Hmember : forall n w, l !! n = Some w -> key w ∈ map key l).
  { intros n w Hn. apply list_elem_of_In, in_map, list_elem_of_In.
    now apply list_elem_of_lookup_2 with n. }
  destruct i as [|i], j as [|j]; cbn in Hi, Hj.
  - reflexivity.
  - injection Hi as <-. exfalso. apply Hfresh. rewrite Hkey. eauto.
  - injection Hj as <-. exfalso. apply Hfresh. rewrite <- Hkey. eauto.
  - f_equal. now apply IH.
Qed.

(** C2.  On a leaderboard whose rows have distinct ids, as the rows of a
    table keyed by [id] have, a user whose id is at index [k] has
    [classRank] [k + 1]; a user whose id is on no row has [classRank]
    [1]. *)
Theorem classRank_of_member (leaderboard : list Student.t) (user : User.t) :
  (NoDup (map Student.id leaderboard) ->
   forall (k : nat) (row : Student.t),
     leaderboard !! k = Some row ->
     Student.id row = User.id user ->
     StudentDashboard.classRank leaderboard user = (Z.of_nat k + 1)%Z) /\
  ((forall row, In row leaderboard -> Student.id row <> User.id user) ->
   StudentDashboard.classRank leaderboard user = 1%Z).
Proof.
  destruct (classRank_first_occurrence leaderboard user) as [Hfirst Habsent].
  split; [|exact Habsent].
  intros Hdistinct k row Hk Hid. apply (Hfirst k row Hk Hid).
  intros j other Hj Hother Hsame.
  assert (j = k); [|lia].
  apply (distinct_keys_one_position Student.id leaderboard j k other row);
    [assumption..|congruence].
Qed.

Lemma classRank_of_member_witness :
  StudentDashboard.classRank
    [Student.make "u-0" (Some "CS") (Some "A") (Some 90%float);
     Student.make "u-1" (Some "CS") (Some "A") (Some 80%float)] Sample.jdoe = 2%Z /\
  StudentDashboard.classRank
    [Student.make "u-0" (Some "CS") (Some "A") (Some 90%float)] Sample.jdoe = 1%Z.
Proof.
  split.
  - apply (proj1 (classRank_of_member _ Sample.jdoe)) with
      (k := 1%nat) (row := Student.make "u-1" (Some "CS") (Some "A") (Some 80%float)).
    + apply (bool_decide_unpack _). vm_compute. exact I.
    + reflexivity.
    + reflexivity.
  - apply (proj2 (classRank_of_member _ Sample.jdoe)).
    intros row [<-|[]]. discriminate.
Defined.

Lemma filter_has_score_nil (data : list QuizResult.t) :
  Forall (fun q => QuizResult.score q = None) data ->
  List.filter StudentDashboard.has_score data = [].
Proof.
  induction 1 as [|q data Hq _ IH]; [reflexivity|].
  cbn. unfold StudentDashboard.has_score at 1. now rewrite Hq.
Qed.

(** With no row at all the average is [0]. *)
Lemma averageScore_no_rows : StudentDashboard.computeAverageScore [] = Js.of_Z 0.
Proof. reflexivity. Qed.

(** The average is computed in doubles: the scores [1.4], [2.8] and [3.3]
    add up to [7.499999999999999], a third of which rounds to [2]. *)
#[warnings="-inexact-float"]
Example averageScore_in_doubles :
  StudentDashboard.computeAverageScore
    [QuizResult.make "u-1" "completed" (Some 1.4%float);
     QuizResult.make "u-1" "completed" (Some 2.8%float);
     QuizResult.make "u-1" "completed" (Some 3.3%float)] = Js.of_Z 2.
Proof. vm_compute. reflexivity. Qed.

(** C1.  The code departs from the claim when rows were fetched and none of
    them has a score: the guard of the division tests the number of rows,
    not the number of scores, so [0 / 0] is computed and [averageScore] is
    [NaN], which is also what the analytics state receives. *)
Theorem averageScore_NaN_without_scores
  (E : Env) (user : User.t) (rows : list QuizResult.t) :
  rows <> [] ->
  Forall (fun q => QuizResult.score q = None) rows ->
  data (E (analytics_query user)) = Some rows ->
  StudentDashboard.computeAverageScore rows = Js.NaN /\
  averageScore
    (StudentDashboard.analytics
       (StudentDashboard.after (trace E (StudentDashboard.fetchAnalytics (Some user)))
                               StudentDashboard.initial)) = Js.NaN.
Proof.
  intros Hrows Hnull Hdata.
  assert (Havg : StudentDashboard.computeAverageScore rows = Js.NaN).
  { unfold StudentDashboard.computeAverageScore.
    rewrite (filter_has_score_nil rows Hnull).
    destruct rows; [now destruct Hrows|reflexivity]. }
  split; [exact Havg|].
  unfold StudentDashboard.fetchAnalytics, analytics_query in *. run_handler.
  rewrite Hdata. run_handler. exact Havg.
Qed.

Lemma averageScore_NaN_without_scores_witness :
  StudentDashboard.computeAverageScore [Sample.ungraded] = Js.NaN /\
  averageScore
    (StudentDashboard.analytics
       (StudentDashboard.after
          (trace (Sample.dashboard (Failure (Error.make "JWT expired")) (Success [])
                                   (Success [Sample.ungraded]))
                 (StudentDashboard.fetchAnalytics (Some Sample.jdoe)))
          StudentDashboard.initial)) = Js.NaN.
Proof.
  apply (averageScore_NaN_without_scores _ Sample.jdoe [Sample.ungraded]).
  - discriminate.
  - repeat constructor.
  - reflexivity.
Defined.

(* ===================================================================== *)
(** ** Failed fetches of the student dashboard *)
(* ===================================================================== *)

Lemma failed_has_no_data {T : Type} (r : PostgrestResponse T) :
  failed r -> data r = None.
Proof. intros [[e He]|Hd]; [now destruct r|exact Hd]. Qed.

Lemma fetchClassmatesAndLeaderboard_trace (E : Env) (profile : Student.t) :
  trace E (StudentDashboard.fetchClassmatesAndLeaderboard (Some profile)) =
    [classmates_query profile;
     setClassmates (default [] (data (E (classmates_query profile))));
     leaderboard_query profile;
     setLeaderboard (default [] (data (E (leaderboard_query profile))))].
Proof. reflexivity. Qed.

Lemma fetchQuizResults_trace (E : Env) (user : User.t) :
  trace E (StudentDashboard.fetchQuizResults (Some user)) =
    [setLoadingData true; results_query user;
     setQuizResults (default [] (data (E (results_query user))));
     setLoadingData false].
Proof. reflexivity. Qed.

(** Without a signed-in user the dashboard pushes [/login] and none of its
    fetches reads a table. *)
Lemma dashboard_signed_out (E : Env) :
  trace E (StudentDashboard.guard None false) = [router_push "/login"] /\
  trace E (StudentDashboard.fetchProfile None) = [] /\
  trace E (StudentDashboard.fetchQuizResults None) = [setLoadingData true] /\
  trace E (StudentDashboard.fetchClassmatesAndLeaderboard None) = [] /\
  trace E (StudentDashboard.fetchAnalytics None) = [].
Proof. repeat split. Qed.

(** C8, as the claim states it, fails on the profile fetch: the state
    receives [null], and no empty array is stored. *)
Lemma failed_profile_fetch_stores_null :
  let E := Sample.dashboard (Failure (Error.make "JWT expired")) (Success []) (Success []) in
  let t := trace E (StudentDashboard.fetchProfile (Some Sample.jdoe)) in
  failed (E (profile_query Sample.jdoe)) /\
  t = [profile_query Sample.jdoe; setStudentProfile None] /\
  List.filter stores_empty_array t = [] /\
  StudentDashboard.studentProfile (StudentDashboard.after t StudentDashboard.initial) = None.
Proof. cbv zeta. repeat split. right. reflexivity. Qed.

(** C8, amended.  A failed fetch of the quiz results, of the classmates or
    of the leaderboard, each on its own, stores an empty array, and leaves
    the state as a successful fetch of no rows does.  A failed fetch of the
    profile stores [null], after which the classmates and the leaderboard are
    not fetched; a failed fetch of the analytics stores nothing.  None of
    them stores or shows an error. *)
Theorem failed_fetch_is_silent (E : Env) (user : User.t) :
  (failed (E (results_query user)) ->
   trace E (StudentDashboard.fetchQuizResults (Some user)) =
     [setLoadingData true; results_query user; setQuizResults []; setLoadingData false] /\
   forall (E' : Env) (v : StudentDashboard.View),
     data (E' (results_query user)) = Some [] ->
     StudentDashboard.after (trace E (StudentDashboard.fetchQuizResults (Some user))) v =
     StudentDashboard.after (trace E' (StudentDashboard.fetchQuizResults (Some user))) v) /\
  (forall profile,
     failed (E (classmates_query profile)) ->
     trace E (StudentDashboard.fetchClassmatesAndLeaderboard (Some profile)) =
       [classmates_query profile; setClassmates [];
        leaderboard_query profile;
        setLeaderboard (default [] (data (E (leaderboard_query profile))))] /\
     forall (E' : Env) (v : StudentDashboard.View),
       data (E' (classmates_query profile)) = Some [] ->
       data (E' (leaderboard_query profile)) = data (E (leaderboard_query profile)) ->
       StudentDashboard.after
         (trace E (StudentDashboard.fetchClassmatesAndLeaderboard (Some profile))) v =
       StudentDashboard.after
         (trace E' (StudentDashboard.fetchClassmatesAndLeaderboard (Some profile))) v) /\
  (forall profile,
     failed (E (leaderboard_query profile)) ->
     trace E (StudentDashboard.fetchClassmatesAndLeaderboard (Some profile)) =
       [classmates_query profile;
        setClassmates (default [] (data (E (classmates_query profile))));
        leaderboard_query profile; setLeaderboard []] /\
     forall (E' : Env) (v : StudentDashboard.View),
       data (E' (leaderboard_query profile)) = Some [] ->
       data (E' (classmates_query profile)) = data (E (classmates_query profile)) ->
       StudentDashboard.after
         (trace E (StudentDashboard.fetchClassmatesAndLeaderboard (Some profile))) v =
       StudentDashboard.after
         (trace E' (StudentDashboard.fetchClassmatesAndLeaderboard (Some profile))) v) /\
  (failed (E (profile_query user)) ->
   trace E (StudentDashboard.fetchProfile (Some user)) =
     [profile_query user; setStudentProfile None] /\
   forall v : StudentDashboard.View,
     trace E (StudentDashboard.fetchClassmatesAndLeaderboard
                (StudentDashboard.studentProfile
                   (StudentDashboard.after
                      (trace E (StudentDashboard.fetchProfile (Some user))) v))) = []) /\
  (failed (E (analytics_query user)) ->
   trace E (StudentDashboard.fetchAnalytics (Some user)) = [analytics_query user] /\
   forall v : StudentDashboard.View,
     StudentDashboard.after (trace E (StudentDashboard.fetchAnalytics (Some user))) v = v).
Proof.
  split; [|split; [|split; [|split]]].
  - intros He. apply failed_has_no_data in He.
    rewrite fetchQuizResults_trace, He. split; [reflexivity|].
    intros E' v HE'. now rewrite fetchQuizResults_trace, HE'.
  - intros profile Hc. apply failed_has_no_data in Hc.
    rewrite fetchClassmatesAndLeaderboard_trace, Hc. split; [reflexivity|].
    intros E' v Hc' Hl'. now rewrite fetchClassmatesAndLeaderboard_trace, Hc', Hl'.
  - intros profile Hl. apply failed_has_no_data in Hl.
    rewrite fetchClassmatesAndLeaderboard_trace, Hl. split; [reflexivity|].
    intros E' v Hl' Hc'. now rewrite fetchClassmatesAndLeaderboard_trace, Hc', Hl'.
  - intros He. apply failed_has_no_data in He.
    assert (Ht : trace E (StudentDashboard.fetchProfile (Some user)) =
                 [profile_query user; setStudentProfile None]).
    { unfold StudentDashboard.fetchProfile, profile_query in *. run_handler. now rewrite He. }
    rewrite Ht. split; reflexivity.
  - intros He. apply failed_has_no_data in He.
    assert (Ht : trace E (StudentDashboard.fetchAnalytics (Some user)) = [analytics_query user]).
    { unfold StudentDashboard.fetchAnalytics, analytics_query in *. run_handler.
      now rewrite He. }
    rewrite Ht. split; reflexivity.
Qed.

Lemma failed_fetch_is_silent_witness :
  trace Sample.signed_out (StudentDashboard.fetchQuizResults (Some Sample.jdoe)) =
    [setLoadingData true; results_query Sample.jdoe; setQuizResults []; setLoadingData false] /\
  (let profile := Student.make "u-1" (Some "CS") (Some "A") (Some 80%float) in
   trace (Sample.classmates_unavailable [profile])
         (StudentDashboard.fetchClassmatesAndLeaderboard (Some profile)) =
     [classmates_query profile; setClassmates [];
      leaderboard_query profile; setLeaderboard [profile]]) /\
  trace Sample.signed_out (StudentDashboard.fetchProfile (Some Sample.jdoe)) =
    [profile_query Sample.jdoe; setStudentProfile None].
Proof.
  split; [|split].
  - apply (proj1 (failed_fetch_is_silent Sample.signed_out Sample.jdoe)).
    left. vm_compute. eauto.
  - apply (proj1 (proj2 (failed_fetch_is_silent
                           (Sample.classmates_unavailable
                              [Student.make "u-1" (Some "CS") (Some "A") (Some 80%float)])
                           Sample.jdoe))
                 (Student.make "u-1" (Some "CS") (Some "A") (Some 80%float))).
    left. vm_compute. eauto.
  - apply (proj1 (proj2 (proj2 (proj2 (failed_fetch_is_silent Sample.signed_out
                                         Sample.jdoe))))).
    right. reflexivity.
Defined.

(* ===================================================================== *)
(** ** Further properties of the forms and of the callback page *)
(* ===================================================================== *)

Lemma filled_false (formData : gmap string string) (fields : list string) (field : string) :
  In field fields ->
  Js.not (formData !! field) = true ->
  filled formData fields = false.
Proof.
  intros Hin Hmissing. unfold filled.
  destruct (forallb _ fields) eqn:Hall; [|reflexivity].
  rewrite forallb_forall in Hall. specialize (Hall field Hin).
  rewrite Hmissing in Hall. discriminate Hall.
Qed.

(** X1.  A sign-up submission in which one required field of the tab is
    missing or empty makes no request at all: it shows the tab's message
    and stops. *)
Theorem signup_missing_field_blocks_requests
  (E : Env) (userType : SignupPage.UserType) (formData : gmap string string) (field : string) :
  In field (required_fields userType) ->
  Js.not (formData !! field) = true ->
  trace E (SignupPage.handleSubmit userType formData) =
    [setError ""; setIsLoading true;
     setError (missing_field_message userType); setIsLoading false;
     setIsLoading false].
Proof.
  intros Hin Hmissing. destruct userType; cbn [required_fields] in Hin.
  - rewrite handleSubmit_student.
    now rewrite (filled_false formData _ field Hin Hmissing).
  - rewrite handleSubmit_faculty.
    now rewrite (filled_false formData _ field Hin Hmissing).
Qed.

Lemma signup_missing_field_blocks_requests_witness :
  trace (Sample.signed_in None true)
        (SignupPage.handleSubmit SignupPage.student SignupPage.initialFormData) =
    [setError ""; setIsLoading true;
     setError "All fields are required for students."; setIsLoading false;
     setIsLoading false].
Proof.
  apply (signup_missing_field_blocks_requests _ SignupPage.student _ "password").
  - vm_compute. tauto.
  - reflexivity.
Defined.

(** X2.  On the student tab the profile is created only after the account:
    a run that issues [create_student_profile] has first issued the sign-up
    call, which returned no error; when the sign-up call returns an error,
    its message is shown and nothing else is requested. *)
Theorem signup_account_before_profile (E : Env) (formData : gmap string string) :
  (In (student_profile_call formData)
      (trace E (SignupPage.handleSubmit SignupPage.student formData)) ->
   auth_error (E (signUp_call formData)) = None /\
   exists rest,
     trace E (SignupPage.handleSubmit SignupPage.student formData) =
       ([setError ""; setIsLoading true; signUp_call formData; student_profile_call formData]
        ++ rest)%list) /\
  (forall error,
     filled formData (required_fields SignupPage.student) = true ->
     auth_error (E (signUp_call formData)) = Some error ->
     trace E (SignupPage.handleSubmit SignupPage.student formData) =
       [setError ""; setIsLoading true; signUp_call formData;
        setError (Error.message error); setIsLoading false; setIsLoading false]).
Proof.
  split.
  - rewrite handleSubmit_student.
    destruct (filled formData _); cbn;
      [|intros [H|[H|[H|[H|[H|[]]]]]]; discriminate H].
    destruct (auth_error _); cbn;
      [intros [H|[H|[H|[H|[H|[H|[]]]]]]]; discriminate H|].
    intros _. split; [reflexivity|]. eauto.
  - intros error Hfilled Herror. rewrite handleSubmit_student.
    cbn [required_fields] in Hfilled. now rewrite Hfilled, Herror.
Qed.

Lemma signup_account_before_profile_witness :
  auth_error (Sample.signed_in None true (signUp_call Sample.form)) = None /\
  trace Sample.signed_out (SignupPage.handleSubmit SignupPage.student Sample.form) =
    [setError ""; setIsLoading true; signUp_call Sample.form;
     setError "Signups not allowed"; setIsLoading false; setIsLoading false].
Proof.
  split.
  - apply (proj1 (signup_account_before_profile (Sample.signed_in None true) Sample.form)).
    vm_compute. tauto.
  - apply (proj2 (signup_account_before_profile Sample.signed_out Sample.form)
             (Error.make "Signups not allowed")); reflexivity.
Defined.

(** X3.  The faculty tab of the sign-up form never calls [supabase.auth]:
    the only request a run can make is the [createFacultyProfile] call with
    the fields of the form, so no account is created there. *)
Theorem faculty_signup_creates_no_account (E : Env) (formData : gmap string string) :
  List.filter is_auth_call (trace E (SignupPage.handleSubmit SignupPage.faculty formData)) = [] /\
  (List.filter is_remote (trace E (SignupPage.handleSubmit SignupPage.faculty formData)) = [] \/
   List.filter is_remote (trace E (SignupPage.handleSubmit SignupPage.faculty formData))
     = [faculty_profile_call formData]).
Proof.
  rewrite handleSubmit_faculty.
  destruct (filled formData _); [|split; [reflexivity|left; reflexivity]].
  destruct (E (faculty_profile_call formData)) as [[]|err];
    [split; [reflexivity|right; reflexivity]|].
  destruct (on_error_trace E err) as (logged & shown & -> & [->|[msg ->]]);
    (split; [reflexivity|right; reflexivity]).
Qed.

(** Close a goal about the result of a run whose value is of type [unit]. *)
Ltac unit_result :=
  cbn -[String.eqb Js.or_str];
  repeat match goal with
         | |- context [Normal ?u] => is_var u; fail 1
         | |- context [Normal (?E ?c)] => destruct (E c)
         end;
  reflexivity.

(** How [handleSubmit] of the sign-up form ends: normally, unless
    [createFacultyProfile] threw a value on which the [catch] block throws
    itself. *)
Lemma handleSubmit_completion
  (E : Env) (userType : SignupPage.UserType) (formData : gmap string string) :
  (run E (SignupPage.handleSubmit userType formData)).2 = Normal tt \/
  exists err thrown,
    userType = SignupPage.faculty /\
    filled formData ["department"; "section"; "username"] = true /\
    E (faculty_profile_call formData) = Rejected err /\
    catch_throws err = true /\
    (run E (SignupPage.handleSubmit userType formData)).2 = Uncaught thrown.
Proof.
  destruct userType.
  - left. unfold SignupPage.handleSubmit. revert E. name_fields formData. intros E.
    destruct (Js.not f_class); [unit_result|].
    destruct (Js.not f_section); [unit_result|].
    destruct (Js.not f_username); [unit_result|].
    destruct (Js.not f_email); [unit_result|].
    destruct (Js.not f_password); [unit_result|].
    cbn -[String.eqb Js.or_str].
    destruct (auth_error (E (auth_signUp _ _ _))); [unit_result|].
    cbn -[String.eqb Js.or_str].
    destruct (E (rpc _ _)); unit_result.
  - destruct (filled formData ["department"; "section"; "username"]) eqn:Hfilled.
    + destruct (E (faculty_profile_call formData)) as [[]|err] eqn:Hanswer.
      * left. revert Hfilled Hanswer. unfold SignupPage.handleSubmit.
        revert E. name_fields formData. intros E Hfilled Hanswer.
        apply andb_prop in Hfilled as [Hdepartment Hfilled].
        apply andb_prop in Hfilled as [Hsection Hfilled].
        apply andb_prop in Hfilled as [Husername _].
        apply negb_true_iff in Hdepartment, Hsection, Husername.
        rewrite Hdepartment, Hsection, Husername. cbn -[String.eqb Js.or_str].
        rewrite Hanswer. unit_result.
      * destruct (handleSubmit_faculty_rejected E formData err Hfilled Hanswer)
          as (shown & result & Hcatch & ->).
        unfold SignupPage.on_error in Hcatch.
        destruct err as [| |[message|[|]]];
          cbn -[String.eqb Js.or_str] in Hcatch;
          try (destruct (negb _ && _); cbn -[String.eqb Js.or_str] in Hcatch);
          injection Hcatch as <- <-;
          first [left; reflexivity | right; eexists _, _; repeat split; reflexivity].
    + left. revert Hfilled. unfold SignupPage.handleSubmit.
      revert E. name_fields formData. intros E Hfilled.
      destruct (Js.not f_department); [unit_result|].
      destruct (Js.not f_section); [unit_result|].
      destruct (Js.not f_username); [unit_result|].
      discriminate Hfilled.
Qed.

(** The run of [handleManualAuth]. *)
Lemma handleManualAuth_run (E : Env) (isRegister : bool) (email password activeTab : string) :
  run E (LoginPage.handleManualAuth isRegister email password activeTab) =
    (([setIsLoading true; setError ""] ++
      (if isRegister then
         [auth_signUp (Some email) (Some password) None;
          setError (match auth_error (E (auth_signUp (Some email) (Some password) None)) with
                    | Some error => Error.message error
                    | None => "Check your email for a confirmation link."
                    end)]
       else
         auth_signInWithPassword email password ::
         match auth_error (E (auth_signInWithPassword email password)),
               auth_session (E (auth_signInWithPassword email password)) with
         | Some error, _ => [setError (Error.message error)]
         | None, Some _ => [router_push (if String.eqb activeTab "faculty"
                                         then "/faculty/dashboard"
                                         else "/student/dashboard")]
         | None, None => []
         end) ++
      [setIsLoading false])%list, Normal tt).
Proof.
  unfold LoginPage.handleManualAuth. destruct isRegister; cbn -[String.eqb].
  - destruct (auth_error _); unit_result.
  - destruct (auth_error _); [unit_result|].
    destruct (auth_session _); unit_result.
Qed.

(** X4.  The last action of both form handlers is always
    [setIsLoading(false)].  The login handler never lets an error escape.
    The sign-up handler lets one escape in one situation only: on the
    faculty tab, when [createFacultyProfile] throws [null], [undefined] or a
    value whose [message] is truthy and no string, the [catch] block throws
    a [TypeError] itself; the loading flag is reset all the same. *)
Theorem form_handlers_always_finish (E : Env) :
  (forall userType formData,
     exists t, trace E (SignupPage.handleSubmit userType formData)
               = (t ++ [setIsLoading false])%list) /\
  (forall userType formData,
     (run E (SignupPage.handleSubmit userType formData)).2 = Normal tt \/
     exists err thrown,
       userType = SignupPage.faculty /\
       filled formData ["department"; "section"; "username"] = true /\
       E (faculty_profile_call formData) = Rejected err /\
       catch_throws err = true /\
       (run E (SignupPage.handleSubmit userType formData)).2 = Uncaught thrown) /\
  (forall formData err,
     filled formData ["department"; "section"; "username"] = true ->
     E (faculty_profile_call formData) = Rejected err ->
     catch_throws err = true ->
     exists thrown,
       (run E (SignupPage.handleSubmit SignupPage.faculty formData)).2 = Uncaught thrown) /\
  (forall isRegister email password activeTab,
     exists t, run E (LoginPage.handleManualAuth isRegister email password activeTab)
               = ((t ++ [setIsLoading false])%list, Normal tt)).
Proof.
  split; [|split; [|split]].
  - intros userType formData. destruct userType.
    + rewrite handleSubmit_student. rewrite app_assoc. eauto.
    + rewrite handleSubmit_faculty. rewrite app_assoc. eauto.
  - apply handleSubmit_completion.
  - intros formData err Hfilled Hrejected Hthrows.
    destruct (handleSubmit_faculty_rejected E formData err Hfilled Hrejected)
      as (shown & result & Hcatch & ->).
    unfold SignupPage.on_error in Hcatch.
    destruct err as [| |[message|[|]]]; try discriminate Hthrows;
      cbn -[String.eqb Js.or_str] in Hcatch; injection Hcatch as <- <-; eauto.
  - intros isRegister email password activeTab.
    rewrite handleManualAuth_run, app_assoc. eauto.
Qed.

Lemma form_handlers_always_finish_witness :
  exists thrown,
    (run (fun c => match c as c' return Resp c' -> Resp c' with
                   | createFacultyProfile _ => fun _ => Rejected Thrown.null
                   | _ => fun other => other
                   end (Sample.signed_in None true c))
         (SignupPage.handleSubmit SignupPage.faculty Sample.form)).2 = Uncaught thrown.
Proof.
  apply (proj1 (proj2 (proj2 (form_handlers_always_finish _))) Sample.form Thrown.null);
    reflexivity.
Defined.

(** X5.  A sign-up submission has one of three outcomes.  It navigates
    once, to the dashboard of its tab, with no message other than the
    initial clearing of the error; or it does not navigate and shows exactly
    one message; or, when [createFacultyProfile] threw a value on which the
    [catch] block throws itself, it neither navigates nor shows a message. *)
Theorem signup_navigates_or_reports
  (E : Env) (userType : SignupPage.UserType) (formData : gmap string string) :
  let t := trace E (SignupPage.handleSubmit userType formData) in
  (navigations t = [match userType with
                    | SignupPage.student => "/student/dashboard"
                    | SignupPage.faculty => "/faculty/dashboard"
                    end] /\
   errors_shown t = [""]) \/
  (navigations t = [] /\ exists msg, errors_shown t = [""; msg]) \/
  (navigations t = [] /\ errors_shown t = [""] /\
   exists err,
     userType = SignupPage.faculty /\
     filled formData ["department"; "section"; "username"] = true /\
     E (faculty_profile_call formData) = Rejected err /\
     catch_throws err = true).
Proof.
  cbv zeta. destruct userType.
  - rewrite handleSubmit_student.
    destruct (filled formData _); [|right; left; split; [reflexivity|eauto]].
    destruct (auth_error _); [right; left; split; [reflexivity|eauto]|].
    destruct (error _); [right; left; split; [reflexivity|eauto]|].
    left. split; reflexivity.
  - rewrite handleSubmit_faculty.
    destruct (filled formData _) eqn:Hfilled; [|right; left; split; [reflexivity|eauto]].
    destruct (E (faculty_profile_call formData)) as [[]|err] eqn:Hanswer;
      [left; split; reflexivity|].
    unfold SignupPage.on_error.
    destruct err as [| |[message|[|]]]; run_handler;
      try (destruct (negb _ && _); run_handler);
      first [solve [right; left; split; [reflexivity|eauto]]
            |solve [right; right; repeat split; eexists; repeat split; eauto]].
Qed.

(** X6.  Registering on the login page ignores the selected tab and never
    navigates: the account is requested with the email and the password
    alone, without a role, and the form shows the error of the request or
    the hint to confirm the email. *)
Theorem login_registration_ignores_tab (E : Env) (email password activeTab : string) :
  trace E (LoginPage.handleManualAuth true email password activeTab) =
    [setIsLoading true; setError "";
     auth_signUp (Some email) (Some password) None;
     setError (match auth_error (E (auth_signUp (Some email) (Some password) None)) with
               | Some error => Error.message error
               | None => "Check your email for a confirmation link."
               end);
     setIsLoading false].
Proof. unfold trace. now rewrite handleManualAuth_run. Qed.

(** X7.  On a password sign-in an error of the request wins over a session
    that came with it: the message is shown and nothing is navigated to.  A
    sign-in that returns neither an error nor a session does nothing
    visible: no message, no navigation. *)
Theorem login_error_and_silent_outcomes (E : Env) (email password activeTab : string) :
  (forall error,
     auth_error (E (auth_signInWithPassword email password)) = Some error ->
     trace E (LoginPage.handleManualAuth false email password activeTab) =
       [setIsLoading true; setError ""; auth_signInWithPassword email password;
        setError (Error.message error); setIsLoading false]) /\
  (auth_error (E (auth_signInWithPassword email password)) = None ->
   auth_session (E (auth_signInWithPassword email password)) = None ->
   trace E (LoginPage.handleManualAuth false email password activeTab) =
     [setIsLoading true; setError ""; auth_signInWithPassword email password;
      setIsLoading false]).
Proof.
  unfold trace. rewrite handleManualAuth_run. split.
  - intros error Herror. now rewrite Herror.
  - intros Herror Hsession. now rewrite Herror, Hsession.
Qed.

Lemma login_error_and_silent_outcomes_witness :
  trace Sample.signed_out
        (LoginPage.handleManualAuth false "jdoe@example.edu" "wrong" "faculty") =
    [setIsLoading true; setError ""; auth_signInWithPassword "jdoe@example.edu" "wrong";
     setError "Invalid login credentials"; setIsLoading false].
Proof.
  apply (proj1 (login_error_and_silent_outcomes Sample.signed_out
                  "jdoe@example.edu" "wrong" "faculty")
           (Error.make "Invalid login credentials")).
  reflexivity.
Defined.

(** X8.  The OAuth callback page always leaves: whatever the environment
    answers, [handleAuth] ends without an error, its last command is its
    only navigation, to the login route or to one of the two dashboards, it
    calls at most one remote procedure and reads no table. *)
Theorem oauth_callback_always_navigates_once (E : Env) :
  exists before url,
    run E AuthCallbackPage.handleAuth = ((before ++ [router_replace url])%list, Normal tt) /\
    navigations before = [] /\
    (url = "/login?error=auth" \/ url = "/student/dashboard" \/ url = "/faculty/dashboard") /\
    (length (List.filter is_profile_creation before) <= 1)%nat /\
    List.filter is_table_read before = [].
Proof.
  unfold AuthCallbackPage.handleAuth, AuthCallbackPage.dashboard, AuthCallbackPage.provision.
  cbn -[String.eqb Js.or_str].
  destruct (session_of (E auth_getSession)) as [s|];
    [destruct (session_error (E auth_getSession));
     [|cbn -[String.eqb Js.or_str];
       destruct (Session.user s) as [user|]; cbn -[String.eqb Js.or_str];
       [destruct (String.eqb _ "faculty"); cbn -[String.eqb Js.or_str];
        destruct (E (rpc _ _))
       |destruct (String.eqb _ "faculty")]]|];
    cbn -[String.eqb Js.or_str];
    match goal with
    | |- exists before url, (?l, _) = _ /\ _ =>
        exists (removelast l); eexists; split; [unit_result|cbn; intuition lia]
    end.
Qed.

(* ===================================================================== *)
(** ** Further properties of the dashboard statistics *)
(* ===================================================================== *)

Lemma filter_length_all {A : Type} (p : A -> bool) (l : list A) :
  (length (List.filter p l) <= length l)%nat /\
  (length (List.filter p l) = length l <-> Forall (fun x => p x = true) l).
Proof.
  induction l as [|x l [IHle IHiff]]; [cbn; split; [lia|split; auto]|].
  cbn. destruct (p x) eqn:Hx; cbn.
  - split; [lia|]. split.
    + intros Hlen. constructor; [exact Hx|]. apply IHiff. lia.
    + intros Hall. inversion Hall; subst. f_equal. now apply IHiff.
  - split; [lia|]. split; [lia|].
    intros Hall. inversion Hall; subst. congruence.
Qed.

(** X11.  After a successful analytics fetch the state holds the number of
    fetched rows as [totalQuizzes] and the number of rows whose status is
    ["completed"] as [completed]; the second never exceeds the first and
    equals it exactly when every row is completed.  The other parts of the
    state are left alone. *)
Theorem analytics_counts_rows
  (E : Env) (user : User.t) (rows : list QuizResult.t) (v : StudentDashboard.View) :
  data (E (analytics_query user)) = Some rows ->
  let v' := StudentDashboard.after (trace E (StudentDashboard.fetchAnalytics (Some user))) v in
  let done := filter (fun q => QuizResult.status q = "completed") rows in
  totalQuizzes (StudentDashboard.analytics v') = Js.of_nat (length rows) /\
  completed (StudentDashboard.analytics v') = Js.of_nat (length done) /\
  (length done <= length rows)%nat /\
  (length done = length rows <->
   Forall (fun q => QuizResult.status q = "completed") rows) /\
  StudentDashboard.quizResults v' = StudentDashboard.quizResults v /\
  StudentDashboard.loadingData v' = StudentDashboard.loadingData v /\
  StudentDashboard.studentProfile v' = StudentDashboard.studentProfile v /\
  StudentDashboard.classmates v' = StudentDashboard.classmates v /\
  StudentDashboard.leaderboard v' = StudentDashboard.leaderboard v.
Proof.
  intros Hdata. cbv zeta.
  assert (Ht : trace E (StudentDashboard.fetchAnalytics (Some user)) =
               [analytics_query user; setAnalytics (StudentDashboard.computeAnalytics rows)]).
  { unfold StudentDashboard.fetchAnalytics, analytics_query in *. run_handler.
    now rewrite Hdata. }
  assert (Hcount : forall l : list QuizResult.t,
             length (List.filter (fun q => String.eqb (QuizResult.status q) "completed") l)
             = length (filter (fun q => QuizResult.status q = "completed") l)).
  { induction l as [|q l IH]; [reflexivity|].
    cbn [List.filter]. rewrite filter_cons.
    destruct (String.eqb_spec (QuizResult.status q) "completed") as [Hq|Hq].
    - rewrite decide_True by exact Hq. cbn. now rewrite IH.
    - rewrite decide_False by exact Hq. exact IH. }
  rewrite Ht.
  destruct (filter_length_all (fun q => String.eqb (QuizResult.status q) "completed") rows)
    as [Hle Hiff].
  rewrite Hcount in Hle, Hiff.
  split; [reflexivity|]. split; [cbn; now rewrite Hcount|].
  split; [exact Hle|]. split; [|repeat split].
  rewrite Hiff. apply Forall_iff. intros q. apply String.eqb_eq.
Qed.

Lemma analytics_counts_rows_witness :
  totalQuizzes
    (StudentDashboard.analytics
       (StudentDashboard.after
          (trace (Sample.dashboard (Failure (Error.make "JWT expired")) (Success [])
                                   (Success [Sample.ungraded]))
                 (StudentDashboard.fetchAnalytics (Some Sample.jdoe)))
          StudentDashboard.initial)) = Js.of_nat 1.
Proof.
  apply (analytics_counts_rows _ Sample.jdoe [Sample.ungraded] StudentDashboard.initial).
  reflexivity.
Defined.

(** What [findIndex] returns: [-1] when no element satisfies [p], and else
    the index of the first one that does. *)
Lemma findIndex_from_cases {A : Type} (p : A -> bool) (l : list A) (i : Z) :
  (Forall (fun x => p x = false) l /\ Js.findIndex_from p l i = (-1)%Z) \/
  (exists (k : nat) (x : A),
     l !! k = Some x /\ p x = true /\
     (forall j y, (j < k)%nat -> l !! j = Some y -> p y = false) /\
     Js.findIndex_from p l i = (i + Z.of_nat k)%Z).
Proof.
  revert i. induction l as [|y l IH]; intros i; [left; split; [constructor|reflexivity]|].
  cbn. destruct (p y) eqn:Hy.
  - right. exists 0%nat, y. repeat split; [exact Hy|lia|lia].
  - destruct (IH (i + 1)%Z) as [[Hall Hnone]|(k & x & Hk & Hx & Hbefore & Hfound)].
    + left. split; [now constructor|exact Hnone].
    + right. exists (S k), x. repeat split; [exact Hk|exact Hx| |lia].
      intros [|j] z Hj Hz; [now injection Hz as <-|].
      apply (Hbefore j); [lia|exact Hz].
Qed.

(** X12.  [classRank] is always a position of the leaderboard, from 1 to
    its length (1 for an empty leaderboard).  Rank 1 is shown in two
    cases that the number does not tell apart: the user is the first row,
    or the user is not on the leaderboard at all. *)
Theorem classRank_range_and_first_place (leaderboard : list Student.t) (user : User.t) :
  (1 <= StudentDashboard.classRank leaderboard user
     <= Z.max 1 (Z.of_nat (length leaderboard)))%Z /\
  (StudentDashboard.classRank leaderboard user = 1%Z <->
   (forall row, In row leaderboard -> Student.id row <> User.id user) \/
   (exists row, leaderboard !! 0%nat = Some row /\ Student.id row = User.id user)).
Proof.
  unfold StudentDashboard.classRank, Js.findIndex, Js.or_int.
  destruct (findIndex_from_cases
              (fun l => String.eqb (Student.id l) (User.id user)) leaderboard 0)
    as [[Hall ->]|(k & x & Hk & Hx & Hbefore & ->)].
  - change (-1 + 1)%Z with 0%Z. cbn [Z.eqb].
    split; [lia|]. split; [intros _|reflexivity].
    left. intros row Hrow. rewrite Forall_forall in Hall.
    apply String.eqb_neq. apply Hall. now apply list_elem_of_In.
  - apply String.eqb_eq in Hx. pose proof (lookup_lt_Some _ _ _ Hk) as Hlt.
    destruct (Z.eqb_spec (0 + Z.of_nat k + 1) 0) as [Hz|_]; [lia|].
    split; [lia|]. split.
    + intros Hone. right. assert (k = 0%nat) as -> by lia. eauto.
    + intros [Habsent|(row & Hrow & Hid)].
      * exfalso. apply (Habsent x); [|exact Hx].
        apply list_elem_of_In. now apply list_elem_of_lookup_2 with k.
      * destruct k as [|k]; [reflexivity|]. exfalso.
        specialize (Hbefore 0%nat row ltac:(lia) Hrow).
        apply String.eqb_neq in Hbefore. contradiction.
Qed.

(** X13.  [recentQuizzes] are the first three fetched quiz results, in the
    order fetched, and all of them when three or fewer were fetched. *)
Theorem recentQuizzes_first_three (quizResults : list QuizResult.t) :
  StudentDashboard.recentQuizzes quizResults = firstn 3 quizResults /\
  length (StudentDashboard.recentQuizzes quizResults) = Nat.min 3 (length quizResults) /\
  ((length quizResults <= 3)%nat -> StudentDashboard.recentQuizzes quizResults = quizResults).
Proof.
  assert (Hslice : StudentDashboard.recentQuizzes quizResults = firstn 3 quizResults).
  { unfold StudentDashboard.recentQuizzes, Js.slice, Js.relative_index. cbn [Z.ltb Z.compare].
    rewrite (Z.min_l 0) by lia. rewrite Z.sub_0_r.
    change (skipn (Z.to_nat 0) quizResults) with quizResults.
    destruct (Z.min_spec 3 (Z.of_nat (length quizResults))) as [[Hlt ->]|[Hle ->]].
    - reflexivity.
    - rewrite Nat2Z.id. rewrite !firstn_all2 by lia. reflexivity. }
  rewrite Hslice. split; [reflexivity|]. split.
  - apply length_firstn.
  - intros Hshort. now apply firstn_all2.
Qed.

Lemma recentQuizzes_first_three_witness :
  StudentDashboard.recentQuizzes [Sample.ungraded; Sample.ungraded]
  = [Sample.ungraded; Sample.ungraded].
Proof.
  apply (proj2 (proj2 (recentQuizzes_first_three [Sample.ungraded; Sample.ungraded]))).
  cbn. lia.
Defined.

(** X14.  With a signed-in user, the quiz-results fetch always ends the
    loading state: after it [loadingData] is [false] and [quizResults] holds
    the fetched rows, or none if the fetch failed; the other parts of the
    state are left alone. *)
Theorem quiz_results_fetch_ends_loading
  (E : Env) (user : User.t) (v : StudentDashboard.View) :
  let v' := StudentDashboard.after
              (trace E (StudentDashboard.fetchQuizResults (Some user))) v in
  StudentDashboard.loadingData v' = false /\
  StudentDashboard.quizResults v' = default [] (data (E (results_query user))) /\
  StudentDashboard.studentProfile v' = StudentDashboard.studentProfile v /\
  StudentDashboard.classmates v' = StudentDashboard.classmates v /\
  StudentDashboard.leaderboard v' = StudentDashboard.leaderboard v /\
  StudentDashboard.analytics v' = StudentDashboard.analytics v.
Proof. cbv zeta. rewrite fetchQuizResults_trace. repeat split. Qed.

(** X15.  The classmates and the leaderboard are fetched for the profile
    that the profile fetch stored: after a successful profile fetch both
    reads filter by the department and the section of that profile, the
    second ordered by score, descending, and each state receives the rows of
    its own read. *)
Theorem roster_follows_fetched_profile
  (E : Env) (user : User.t) (profile : Student.t) (v : StudentDashboard.View) :
  data (E (profile_query user)) = Some profile ->
  let v1 := StudentDashboard.after (trace E (StudentDashboard.fetchProfile (Some user))) v in
  let roster := trace E (StudentDashboard.fetchClassmatesAndLeaderboard
                           (StudentDashboard.studentProfile v1)) in
  StudentDashboard.studentProfile v1 = Some profile /\
  List.filter is_table_read roster =
    [select_students {| from := "students"; select := "*";
                        eq := [("department", Student.department profile);
                               ("section", Student.section profile)];
                        order := None |};
     select_students {| from := "students"; select := "*";
                        eq := [("department", Student.department profile);
                               ("section", Student.section profile)];
                        order := Some ("score", false) |}] /\
  StudentDashboard.classmates (StudentDashboard.after roster v1)
    = default [] (data (E (classmates_query profile))) /\
  StudentDashboard.leaderboard (StudentDashboard.after roster v1)
    = default [] (data (E (leaderboard_query profile))).
Proof.
  intros Hprofile. cbv zeta.
  assert (Ht : trace E (StudentDashboard.fetchProfile (Some user)) =
               [profile_query user; setStudentProfile (Some profile)]).
  { unfold StudentDashboard.fetchProfile, profile_query in *. run_handler.
    now rewrite Hprofile. }
  rewrite Ht. cbn [StudentDashboard.after fold_left StudentDashboard.set profile_query
                   StudentDashboard.studentProfile].
  rewrite fetchClassmatesAndLeaderboard_trace. repeat split.
Qed.

Lemma roster_follows_fetched_profile_witness :
  StudentDashboard.studentProfile
    (StudentDashboard.after
       (trace (Sample.signed_in (Some "student") true)
              (StudentDashboard.fetchProfile (Some Sample.jdoe)))
       StudentDashboard.initial)
  = Some (Student.make "u-1" (Some "CS") (Some "A") (Some 80%float)).
Proof.
  apply (roster_follows_fetched_profile (Sample.signed_in (Some "student") true) Sample.jdoe).
  reflexivity.
Defined.

(* ===================================================================== *)
(** ** The names shown on the dashboard *)
(* ===================================================================== *)

Section Split.

Variable sep : ascii.

(** [split] always gives a first piece: it has no separator in it, and the
    string is this piece alone or this piece, the separator and the rest. *)
Lemma split_first (s : string) :
  exists piece pieces,
    Js.split s sep = piece :: pieces /\
    has_char sep piece = false /\
    starts_with_piece s piece sep.
Proof.
  induction s as [|c s (piece & pieces & Hsplit & Hclean & Hstart)].
  - exists EmptyString, []. repeat split. now left.
  - cbn. destruct (Ascii.eqb_spec c sep) as [->|Hc].
    + exists EmptyString, (Js.split s sep). repeat split. right. now exists s.
    + rewrite Hsplit. exists (String c piece), pieces. repeat split.
      * cbn. rewrite Hclean. now apply Ascii.eqb_neq in Hc as ->.
      * destruct Hstart as [->|[rest ->]]; [now left|right; now exists rest].
Qed.

(** Every piece of [split] is free of the separator. *)
Lemma split_pieces_clean (s : string) :
  Forall (fun piece => has_char sep piece = false) (Js.split s sep).
Proof.
  induction s as [|c s IH]; [repeat constructor|].
  cbn. destruct (Ascii.eqb_spec c sep) as [->|Hc]; [now constructor|].
  destruct (Js.split s sep) as [|piece pieces]; [repeat constructor; cbn|].
  - now apply Ascii.eqb_neq in Hc as ->.
  - inversion IH; subst. constructor; [|assumption].
    cbn. apply Ascii.eqb_neq in Hc as ->. assumption.
Qed.

End Split.

(** X16.  [getFirstName] is always defined: it is the part of the display
    name before its first space, so it contains no space, and it is empty
    when the display name starts with a space. *)
Theorem getFirstName_is_first_word (displayName : string) :
  exists firstName,
    StudentDashboard.getFirstName displayName = Some firstName /\
    has_char " " firstName = false /\
    starts_with_piece displayName firstName " ".
Proof.
  destruct (split_first " " displayName) as (piece & pieces & Hsplit & Hclean & Hstart).
  exists piece. unfold StudentDashboard.getFirstName, Js.first. now rewrite Hsplit.
Qed.

(** What [trimStart] does at the start of a string: it leaves the string as
    it is, or it removes one white-space character and goes on. *)
Lemma trimStart_cases (s : string) :
  Js.trimStart s = s \/
  exists space rest,
    Js.is_white_space space = true /\
    s = space +:+ rest /\
    Js.trimStart s = Js.trimStart rest /\
    (String.length rest < String.length s)%nat.
Proof.
  destruct s as [|c1 [|c2 [|c3 rest]]]; [now left|..]; cbn [Js.trimStart].
  - destruct (Js.is_white_space (String c1 EmptyString)) eqn:H1; [|now left].
    right. exists (String c1 EmptyString), EmptyString. repeat split; [exact H1|cbn; lia].
  - destruct (Js.is_white_space (String c1 EmptyString)) eqn:H1.
    { right. exists (String c1 EmptyString), (String c2 EmptyString).
      repeat split; [exact H1|cbn; lia]. }
    destruct (Js.is_white_space (String c1 (String c2 EmptyString))) eqn:H2; [|now left].
    right. exists (String c1 (String c2 EmptyString)), EmptyString.
    repeat split; [exact H2|cbn; lia].
  - destruct (Js.is_white_space (String c1 EmptyString)) eqn:H1.
    { right. exists (String c1 EmptyString), (String c2 (String c3 rest)).
      repeat split; [exact H1|cbn; lia]. }
    destruct (Js.is_white_space (String c1 (String c2 EmptyString))) eqn:H2.
    { right. exists (String c1 (String c2 EmptyString)), (String c3 rest).
      repeat split; [exact H2|cbn; lia]. }
    destruct (Js.is_white_space (String c1 (String c2 (String c3 EmptyString)))) eqn:H3;
      [|now left].
    right. exists (String c1 (String c2 (String c3 EmptyString))), rest.
    repeat split; [exact H3|cbn; lia].
Qed.

Lemma is_white_space_utf8 (bytes : string) :
  Js.is_white_space bytes = true <->
  exists code_point, In code_point Js.WhiteSpace /\ Js.utf8 code_point = bytes.
Proof.
  unfold Js.is_white_space. rewrite existsb_exists.
  split; intros (code_point & Hin & Heq); exists code_point; split; try assumption.
  - now apply String.eqb_eq.
  - now apply String.eqb_eq.
Qed.

(** [trimStart] removes each of the white-space characters. *)
Lemma trimStart_space (code_point : N) (rest : string) :
  In code_point Js.WhiteSpace ->
  Js.trimStart (Js.utf8 code_point +:+ rest) = Js.trimStart rest.
Proof.
  intros Hin. cbn in Hin.
  repeat (destruct Hin as [<-|Hin]; [reflexivity|]). contradiction.
Qed.

(** [trimStart] leaves nothing exactly of the strings that are white space
    only. *)
Lemma trimStart_empty (s : string) : Js.trimStart s = EmptyString <-> Blank s.
Proof.
  split.
  - remember (String.length s) as n eqn:Hn. revert s Hn.
    induction n as [n IH] using lt_wf_ind. intros s -> Hs.
    destruct (trimStart_cases s) as [Hsame|(space & rest & Hspace & -> & Hstep & Hlen)].
    + rewrite Hsame in Hs. subst s. constructor.
    + apply is_white_space_utf8 in Hspace as (code_point & Hin & <-).
      constructor; [exact Hin|].
      apply (IH _ Hlen rest eq_refl). now rewrite <- Hstep.
  - induction 1 as [|code_point rest Hin _ IH]; [reflexivity|].
    now rewrite trimStart_space.
Qed.

Lemma trimStart_twice (s : string) : Js.trimStart (Js.trimStart s) = Js.trimStart s.
Proof.
  remember (String.length s) as n eqn:Hn. revert s Hn.
  induction n as [n IH] using lt_wf_ind. intros s ->.
  destruct (trimStart_cases s) as [Hsame|(space & rest & _ & _ & Hstep & Hlen)].
  - now rewrite Hsame.
  - rewrite Hstep. exact (IH _ Hlen rest eq_refl).
Qed.

Lemma trimEnd_empty (s : string) :
  Js.trimEnd s = EmptyString <-> Js.trimStart s = EmptyString.
Proof.
  destruct s as [|c rest]; [easy|].
  cbn [Js.trimEnd]. destruct (Js.trimStart (String c rest)); easy.
Qed.

(** [s.trim()] is empty exactly when [s] is white space only. *)
Lemma trim_empty (s : string) : Js.trim s = EmptyString <-> Blank s.
Proof.
  unfold Js.trim. now rewrite trimEnd_empty, trimStart_twice, trimStart_empty.
Qed.

(** Whether a string is white space only can be computed. *)
#[global] Instance Blank_dec (s : string) : Decision (Blank s).
Proof.
  destruct (decide (Js.trimStart s = EmptyString)) as [Hs|Hs]; [left|right].
  - now apply trimStart_empty.
  - intros Hblank. now apply Hs, trimStart_empty.
Defined.

(** The test of [getDisplayName]: the name is there and has a character
    that is not white space. *)
Lemma getDisplayName_uses_name (user : StudentDashboard.Named) :
  negb (Js.not (StudentDashboard.name user)) &&
  (0 <? String.length (Js.trim (default EmptyString (StudentDashboard.name user))))%nat
  = true <-> ~ no_name (StudentDashboard.name user).
Proof.
  destruct (StudentDashboard.name user) as [n|]; [|cbn; intuition discriminate].
  change (default EmptyString (Some n)) with n.
  cbn [no_name Js.not]. rewrite <- trim_empty.
  destruct (Js.trim n) as [|c kept] eqn:Htrim.
  - change (0 <? String.length EmptyString)%nat with false.
    rewrite andb_false_r. intuition discriminate.
  - destruct n; [discriminate Htrim|]. cbn. intuition discriminate.
Qed.

(** X18.  [getDisplayName] shows the name as it is, untrimmed, when the
    name has a character that is not white space, white space being the
    characters that [trim] removes, the no-break space among them.
    Otherwise it shows the part of the email before its first [@], which
    may be empty, and ["User"] only when there is no email at all. *)
Theorem getDisplayName_falls_back_to_email (user : StudentDashboard.Named) :
  (forall n,
     StudentDashboard.name user = Some n -> ~ Blank n ->
     StudentDashboard.getDisplayName user = n) /\
  (forall address,
     no_name (StudentDashboard.name user) ->
     StudentDashboard.email user = Some address ->
     has_char "@" (StudentDashboard.getDisplayName user) = false /\
     starts_with_piece address (StudentDashboard.getDisplayName user) "@") /\
  (no_name (StudentDashboard.name user) ->
   StudentDashboard.email user = None ->
   StudentDashboard.getDisplayName user = "User").
Proof.
  pose proof (getDisplayName_uses_name user) as Htest.
  unfold StudentDashboard.getDisplayName.
  destruct (negb (Js.not (StudentDashboard.name user)) &&
            (0 <? String.length
                    (Js.trim (default EmptyString (StudentDashboard.name user))))%nat).
  - destruct Htest as [Htest _]. specialize (Htest eq_refl).
    split; [|split].
    + intros n Hn _. now rewrite Hn.
    + intros address Hname. contradiction.
    + intros Hname. contradiction.
  - assert (Hname : no_name (StudentDashboard.name user)).
    { destruct (StudentDashboard.name user) as [n|]; [|exact I].
      cbn in *. destruct (decide (Blank n)) as [Hn|Hn]; [exact Hn|].
      destruct Htest as [_ Htest]. discriminate (Htest Hn). }
    split; [|split].
    + intros n Hn Hblank. rewrite Hn in Hname. contradiction.
    + intros address _ Hemail. rewrite Hemail.
      destruct (split_first "@" address) as (piece & pieces & -> & Hclean & Hstart).
      now split.
    + intros _ Hemail. now rewrite Hemail.
Qed.

Lemma getDisplayName_falls_back_to_email_witness :
  StudentDashboard.getDisplayName
    {| StudentDashboard.name := Some " J. Doe "; StudentDashboard.email := None |}
    = " J. Doe " /\
  (let user := {| StudentDashboard.name := Some (Js.utf8 0xA0 +:+ Js.utf8 0x3000);
                  StudentDashboard.email := Some "jdoe@example.edu" |} in
   has_char "@" (StudentDashboard.getDisplayName user) = false /\
   starts_with_piece "jdoe@example.edu" (StudentDashboard.getDisplayName user) "@") /\
  StudentDashboard.getDisplayName
    {| StudentDashboard.name := None; StudentDashboard.email := None |} = "User".
Proof.
  split; [|split].
  - apply (proj1 (getDisplayName_falls_back_to_email _)); [reflexivity|].
    apply (bool_decide_unpack _). vm_compute. exact I.
  - apply (proj1 (proj2 (getDisplayName_falls_back_to_email
                           {| StudentDashboard.name :=
                                Some (Js.utf8 0xA0 +:+ Js.utf8 0x3000);
                              StudentDashboard.email := Some "jdoe@example.edu" |}))
                 "jdoe@example.edu"); [|reflexivity].
    apply (bool_decide_unpack _). vm_compute. exact I.
  - apply (proj2 (proj2 (getDisplayName_falls_back_to_email _))); [exact I|reflexivity].
Defined.

(* ===================================================================== *)
(** ** The mount of the sign-up page and the Google button *)
(* ===================================================================== *)

(** X19.  When the sign-up page is mounted, a visitor without a session
    user causes nothing beyond the session fetch.  For a signed-in visitor
    the page reads the [id] of the profile row of the role, which is the
    [userType] query parameter or else the tab, in [faculty_profiles] for
    ["faculty"] and in [student_profiles] otherwise, by the email of the
    user, and replaces itself by the dashboard of the role exactly when the
    read gave a row; a failed read leaves the visitor on the form.  An error
    of the session fetch is not looked at. *)
Theorem signup_mount_redirects_only_with_profile
  (W : Page.World) (searchParams : gmap string string) (userType : SignupPage.UserType) :
  let role := Js.or_str (searchParams !! "userType") (SignupMount.UserType_string userType) in
  let table := if String.eqb role "faculty" then "faculty_profiles" else "student_profiles" in
  let url := if String.eqb role "faculty" then "/faculty/dashboard" else "/student/dashboard" in
  let run := Page.calls W (SignupMount.checkAuthAndProfile searchParams userType) in
  (session_of (W (Page.core auth_getSession)) ≫= Session.user = None ->
   run = [Page.core auth_getSession]) /\
  (forall user,
     session_of (W (Page.core auth_getSession)) ≫= Session.user = Some user ->
     let read := Page.single_id {| from := table; select := "id";
                                   eq := [("email", User.email user)]; order := None |} in
     (forall row, data (W read) = Some row ->
                  run = [Page.core auth_getSession; read; Page.core (router_replace url)]) /\
     (data (W read) = None -> run = [Page.core auth_getSession; read])).
Proof.
  cbv zeta. unfold Page.calls, SignupMount.checkAuthAndProfile. cbn -[String.eqb Js.or_str].
  split.
  - intros Hnone. now rewrite Hnone.
  - intros user Huser. rewrite Huser.
    destruct (String.eqb _ "faculty"); cbn -[String.eqb Js.or_str]; split.
    + intros row Hrow. rewrite Hrow. reflexivity.
    + intros Hnone. rewrite Hnone. reflexivity.
    + intros row Hrow. rewrite Hrow. reflexivity.
    + intros Hnone. rewrite Hnone. reflexivity.
Qed.

Lemma signup_mount_redirects_only_with_profile_witness :
  Page.calls (sample_world Sample.signed_out (Failure (Error.make "JWT expired"))
                           (Returned tt))
             (SignupMount.checkAuthAndProfile ∅ SignupPage.student)
    = [Page.core auth_getSession] /\
  Page.calls (sample_world (Sample.signed_in None true) (Success {| Page.id := "p-1" |})
                           (Returned tt))
             (SignupMount.checkAuthAndProfile {["userType" := "faculty"]} SignupPage.student)
    = [Page.core auth_getSession;
       Page.single_id {| from := "faculty_profiles"; select := "id";
                         eq := [("email", Some "jdoe@example.edu")]; order := None |};
       Page.core (router_replace "/faculty/dashboard")].
Proof.
  split.
  - apply (proj1 (signup_mount_redirects_only_with_profile _ ∅ SignupPage.student)).
    reflexivity.
  - pose proof (proj1 (proj2 (signup_mount_redirects_only_with_profile
                                (sample_world (Sample.signed_in None true)
                                              (Success {| Page.id := "p-1" |}) (Returned tt))
                                {["userType" := "faculty"]} SignupPage.student)
                         Sample.jdoe eq_refl) {| Page.id := "p-1" |}) as Hrun.
    vm_compute in Hrun. vm_compute. apply Hrun. reflexivity.
Defined.

(** X20.  The Google button always finishes: it passes the active tab to
    [signInWithGoogle], shows the fixed message ["Google sign-in failed"]
    when that call throws, whatever was thrown, lets no error escape, and
    ends with [setGoogleLoading(false)]; it navigates nowhere itself. *)
Theorem google_sign_in_always_finishes (W : Page.World) (activeTab : string) :
  Page.play W (GoogleButton.handleGoogleSignIn activeTab) =
    (([Page.setGoogleLoading true; Page.setGoogleError "";
       Page.signInWithGoogle activeTab] ++
      match W (Page.signInWithGoogle activeTab) with
      | Returned _ => []
      | Rejected _ => [Page.setGoogleError "Google sign-in failed"]
      end ++
      [Page.setGoogleLoading false])%list, Normal tt) /\
  Page.visited (Page.calls W (GoogleButton.handleGoogleSignIn activeTab)) = [].
Proof.
  unfold Page.calls, GoogleButton.handleGoogleSignIn. cbn.
  destruct (W (Page.signInWithGoogle activeTab)) as [[]|err]; cbn;
    [|destruct (W (Page.setGoogleError "Google sign-in failed"))]; split; reflexivity.
Qed.

(** X21.  The pre-fill of the sign-up form writes the [email] and the
    [name] fields, each from its query parameter or as the empty string,
    and keeps every other field; applying it twice is the same as applying
    it once.  A form that was only pre-filled cannot be submitted on the
    student tab: the submission stops at the required fields and requests
    nothing. *)
Theorem prefill_sets_email_and_name_only
  (searchParams prev : gmap string string) :
  SignupMount.prefill searchParams prev !! "email"
    = Some (Js.or_str (searchParams !! "email") "") /\
  SignupMount.prefill searchParams prev !! "name"
    = Some (Js.or_str (searchParams !! "name") "") /\
  (forall field : string,
     field <> "email" -> field <> "name" ->
     SignupMount.prefill searchParams prev !! field = prev !! field) /\
  SignupMount.prefill searchParams (SignupMount.prefill searchParams prev)
    = SignupMount.prefill searchParams prev /\
  (forall E : Env,
     trace E (SignupPage.handleSubmit SignupPage.student
                (SignupMount.prefill searchParams SignupPage.initialFormData)) =
       [setError ""; setIsLoading true;
        setError "All fields are required for students."; setIsLoading false;
        setIsLoading false]).
Proof.
  unfold SignupMount.prefill. cbv zeta.
  assert (Hframe : forall (m : gmap string string) (field : string),
             field <> "email" -> field <> "name" ->
             <["name" := Js.or_str (searchParams !! "name") ""]>
               (<["email" := Js.or_str (searchParams !! "email") ""]> m) !! field
             = m !! field).
  { intros m field Hemail Hname. now rewrite !lookup_insert_ne by congruence. }
  split; [|split; [|split; [|split]]].
  - rewrite lookup_insert_ne by discriminate. apply lookup_insert_eq.
  - apply lookup_insert_eq.
  - apply Hframe.
  - apply map_eq. intros field.
    destruct (decide (field = "name")) as [->|Hname];
      [now rewrite !lookup_insert_eq|].
    destruct (decide (field = "email")) as [->|Hemail].
    + rewrite !(lookup_insert_ne _ "name") by discriminate. now rewrite !lookup_insert_eq.
    + now rewrite !Hframe.
  - intros E. rewrite handleSubmit_student.
    rewrite (filled_false _ _ "class"); [reflexivity|cbn; tauto|].
    rewrite Hframe by discriminate. reflexivity.
Qed.

Lemma prefill_sets_email_and_name_only_witness :
  SignupMount.prefill {["email" := "jdoe@example.edu"]} Sample.form !! "username"
    = Sample.form !! "username".
Proof.
  apply (proj1 (proj2 (proj2 (prefill_sets_email_and_name_only
                                {["email" := "jdoe@example.edu"]} Sample.form))));
    discriminate.
Defined.
